(** * CTFNote server: the team service

    A shallow embedding of [TeamService] as it is written in
    [src/services/Team.ts], and of its logging-instrumented variant
    ([src/unnamed/part_000]), together with the properties of the
    natural-language specification that concern them.

    Conventions of the embedding.

    - The three Mongoose collections ([UserModel], [TeamModel],
      [TeamInviteModel]) are lists of records held in a [Store]; a document
      is identified by its [_id].  References between documents are stored
      as identifiers.  A document that [findById] loads holds identifiers
      in its arrays ([team.members], [user.teams]), which is why
      [updateOwner] populates them itself; [invite.team], which the code
      uses as a team document throughout, is resolved through the store.
    - Every service method is a computation in the monad [M]: it takes the
      store, returns either a value or the error it throws, and the store
      as persisted at that point.  In-memory changes of a loaded document
      reach the store only through [save].
    - Persistence calls are taken to succeed, and the writes an operation
      issues ([team.save(); user.save()]) are taken to have completed when
      its outcome is observed.
    - What the environment supplies is an explicit argument: the clock
      ([new Date()]) and the random invite code ([randomBytes(3)]).
    - [Logger] calls write to an external sink and are left out. *)

From Stdlib Require Import List String Ascii ZArith Bool Lia PeanoNat.
Import ListNotations.

Local Open Scope string_scope.
Local Open Scope Z_scope.

(** ** JavaScript primitives used by the service *)

Module JS.

(** A string of ASCII characters only. *)
Fixpoint isAscii (s : string) : bool :=
  match s with
  | EmptyString => true
  | String c r => ((nat_of_ascii c <? 128)%nat && isAscii r)%bool
  end.

(** [String.prototype.toLowerCase] on ASCII strings, where it folds [A-Z]
    and leaves every other character.  On a string with other characters
    JavaScript folds by the Unicode tables, which this function does not
    follow: what is stated of names in general is stated of [isAscii]
    names. *)
Definition lower_ascii (c : ascii) : ascii :=
  let n := nat_of_ascii c in
  if ((65 <=? n)%nat && (n <=? 90)%nat)%bool then ascii_of_nat (n + 32) else c.

Fixpoint toLowerCase (s : string) : string :=
  match s with
  | EmptyString => EmptyString
  | String c r => String (lower_ascii c) (toLowerCase r)
  end.

(** Truthiness of an optional string: [undefined] and [""] are falsy. *)
Definition truthy_string (o : option string) : bool :=
  match o with
  | Some s => negb (String.eqb s "")
  | None => false
  end.

(** Truthiness of an optional number: [undefined] and [0] are falsy. *)
Definition truthy_number (o : option Z) : bool :=
  match o with
  | Some n => negb (n =? 0)
  | None => false
  end.

(** [Array.prototype.indexOf] on identifiers: the first position holding
    [x], or [-1]. *)
Fixpoint indexOf (l : list nat) (x : nat) : Z :=
  match l with
  | [] => -1
  | y :: r =>
      if (y =? x)%nat then 0
      else let i := indexOf r x in if i <? 0 then -1 else i + 1
  end.

(** [Array.prototype.splice(start, deleteCount)]: the removed elements
    (what the call returns) and the elements that stay in the array. *)
Definition splice {A} (l : list A) (start deleteCount : Z) : list A * list A :=
  let len := Z.of_nat (List.length l) in
  let from := if start <? 0 then Z.max (len + start) 0 else Z.min start len in
  let cnt := Z.min (Z.max deleteCount 0) (len - from) in
  (firstn (Z.to_nat cnt) (skipn (Z.to_nat from) l),
   (firstn (Z.to_nat from) l ++ skipn (Z.to_nat (from + cnt)) l)%list).

(** [a >= b] where [b] may be [undefined]: the comparison with [NaN] is
    false. *)
Definition geq_undefined (a : Z) (b : option Z) : bool :=
  match b with
  | Some n => n <=? a
  | None => false
  end.

End JS.

(** ** Data model *)

Definition ObjectId := nat.
Bind Scope nat_scope with ObjectId.

Module User.
Record t := mk { _id : ObjectId; isAdmin : bool; teams : list ObjectId }.
Definition set_teams (u : t) (l : list ObjectId) : t :=
  mk (_id u) (isAdmin u) l.
End User.

Module Socials.
Record t := mk { twitter : option string; website : option string }.
Definition none : t := mk None None.
Definition set_twitter (s : t) (v : option string) : t := mk v (website s).
Definition set_website (s : t) (v : option string) : t := mk (twitter s) v.
End Socials.

Module Team.
Record t := mk {
  _id : ObjectId;
  name : string;
  owner : ObjectId;
  members : list ObjectId;
  socials : Socials.t;
  invites : list ObjectId
}.
Definition set_name (x : t) (v : string) : t :=
  mk (_id x) v (owner x) (members x) (socials x) (invites x).
Definition set_owner (x : t) (v : ObjectId) : t :=
  mk (_id x) (name x) v (members x) (socials x) (invites x).
Definition set_members (x : t) (v : list ObjectId) : t :=
  mk (_id x) (name x) (owner x) v (socials x) (invites x).
Definition set_socials (x : t) (v : Socials.t) : t :=
  mk (_id x) (name x) (owner x) (members x) v (invites x).
Definition set_invites (x : t) (v : list ObjectId) : t :=
  mk (_id x) (name x) (owner x) (members x) (socials x) v.

(** Modelled from the spec: the methods of the Team model
    ([src/models/Team.ts] is not among the sources).  [isOwner] holds of
    the team's single owner; [inTeam] holds of a team member, and "owner
    counts as member". *)
Definition isOwner (x : t) (u : User.t) : bool :=
  (owner x =? User._id u)%nat.
Definition inTeam (x : t) (u : User.t) : bool :=
  (existsb (fun m => (m =? User._id u)%nat) (members x) || isOwner x u)%bool.
End Team.

Module TeamInvite.
Record t := mk {
  _id : ObjectId;
  team : ObjectId;
  inviteCode : string;
  expiry : option Z;
  maxUses : option Z;
  createdAt : Z;
  createdByUser : ObjectId;
  uses : list ObjectId
}.
Definition set_uses (x : t) (v : list ObjectId) : t :=
  mk (_id x) (team x) (inviteCode x) (expiry x) (maxUses x) (createdAt x)
     (createdByUser x) v.
End TeamInvite.

(** Modelled from the spec: [BasicInvite] and [basicInvite] of [src/util]
    are not among the sources; the reduced view omits the internal fields
    (creator, creation time, raw use list). *)
Module BasicInvite.
Record t := mk {
  team : ObjectId;
  inviteCode : string;
  expiry : option Z;
  maxUses : option Z
}.
End BasicInvite.

Definition basicInvite (i : TeamInvite.t) : BasicInvite.t :=
  BasicInvite.mk (TeamInvite.team i) (TeamInvite.inviteCode i)
                 (TeamInvite.expiry i) (TeamInvite.maxUses i).

(** The payload of a bearer token. *)
Module JWTData.
Record t := mk { id : ObjectId; isAdmin : bool }.
End JWTData.

(** A bearer token as [jsonwebtoken] sees it: a string that is no token at
    all, a well-formed token that fails verification against the configured
    secret (bad signature, expired), or a token that verifies. *)
Inductive Token :=
| Garbage
| Unverified (d : JWTData.t)
| Signed (d : JWTData.t).

Module jsonWebToken.
(** [verify] returns the payload, or throws ([None]). *)
Definition verify (jwt : Token) : option JWTData.t :=
  match jwt with
  | Signed d => Some d
  | _ => None
  end.
(** [decode] does not check the signature; it returns [null] on a string
    that is not a token. *)
Definition decode (jwt : Token) : option JWTData.t :=
  match jwt with
  | Garbage => None
  | Unverified d | Signed d => Some d
  end.
End jsonWebToken.

Module TeamDetailsUpdateData.
Record socials_t := mkSocials { twitter : option string; website : option string }.
Record t := mk { name : option string; socials : option socials_t }.
End TeamDetailsUpdateData.

Module InviteOptions.
Record t := mk { expiry : option Z; maxUses : option Z }.
End InviteOptions.

(** ** Errors *)

Record ErrorBody := {
  errorCode : option string;
  errorMessage : option string;
  details : option string
}.

Definition withCode (c : string) : ErrorBody := Build_ErrorBody (Some c) None None.
Definition withMessage (m : string) : ErrorBody := Build_ErrorBody None (Some m) None.

(** The HTTP errors of [src/types/httperrors], the [TypeError] the runtime
    raises on a property access through [null] or [undefined], and the
    [AuthenticationError] of the specification: what the identity verifier
    fails with, where the sources do not show which HTTP error that is. *)
Inductive Error :=
| BadRequestError (b : ErrorBody)
| ConflictError (b : ErrorBody)
| NotFoundError (b : ErrorBody)
| UnauthorizedError (b : ErrorBody)
| InternalServerError
| TypeError
| AuthenticationError.

(** ** The store and the service monad *)

Class Document (A : Type) := doc_id : A -> ObjectId.
#[export] Instance User_Document : Document User.t := User._id.
#[export] Instance Team_Document : Document Team.t := Team._id.
#[export] Instance TeamInvite_Document : Document TeamInvite.t := TeamInvite._id.

Section Collections.
Context {A : Type} `{Document A}.

Definition findById (c : list A) (i : ObjectId) : option A :=
  find (fun d => (doc_id d =? i)%nat) c.

(** [doc.save()]: replaces the stored document of the same [_id], or
    inserts the document when there is none. *)
Fixpoint save (d : A) (c : list A) : list A :=
  match c with
  | [] => [d]
  | x :: r => if (doc_id x =? doc_id d)%nat then d :: r else x :: save d r
  end.

(** [doc.delete()]. *)
Definition delete (d : A) (c : list A) : list A :=
  filter (fun x => negb (doc_id x =? doc_id d)%nat) c.
End Collections.

Record Store := {
  UserModel : list User.t;
  TeamModel : list Team.t;
  TeamInviteModel : list TeamInvite.t;
  nextId : ObjectId
}.

Inductive Outcome (A : Type) :=
| Ok (a : A)
| Throw (e : Error).
Arguments Ok {A} a.
Arguments Throw {A} e.

Definition M (A : Type) : Type := Store -> Outcome A * Store.

Definition ret {A} (a : A) : M A := fun s => (Ok a, s).
Definition throw {A} (e : Error) : M A := fun s => (Throw e, s).
Definition bind {A B} (c : M A) (k : A -> M B) : M B :=
  fun s =>
    match c s with
    | (Ok a, s') => k a s'
    | (Throw e, s') => (Throw e, s')
    end.

Declare Scope service_scope.
Delimit Scope service_scope with service.
Notation "x <- c ;; k" := (bind c (fun x => k))
  (at level 61, c at next level, right associativity) : service_scope.
Notation "c ;; k" := (bind c (fun _ => k))
  (at level 61, right associativity) : service_scope.
Local Open Scope service_scope.

Definition gets {A} (f : Store -> A) : M A := fun s => (Ok (f s), s).
Definition modify (f : Store -> Store) : M unit := fun s => (Ok tt, f s).

(** A property access through a value that may be [null]. *)
Definition deref {A} (o : option A) : M A :=
  match o with
  | Some a => ret a
  | None => throw TypeError
  end.

Definition saveUser (u : User.t) : M unit :=
  modify (fun s => Build_Store (save u (UserModel s)) (TeamModel s)
                               (TeamInviteModel s) (nextId s)).
Definition saveTeam (t : Team.t) : M unit :=
  modify (fun s => Build_Store (UserModel s) (save t (TeamModel s))
                               (TeamInviteModel s) (nextId s)).
Definition saveInvite (i : TeamInvite.t) : M unit :=
  modify (fun s => Build_Store (UserModel s) (TeamModel s)
                               (save i (TeamInviteModel s)) (nextId s)).
Definition deleteTeamDoc (t : Team.t) : M unit :=
  modify (fun s => Build_Store (UserModel s) (delete t (TeamModel s))
                               (TeamInviteModel s) (nextId s)).
Definition deleteInviteDoc (i : TeamInvite.t) : M unit :=
  modify (fun s => Build_Store (UserModel s) (TeamModel s)
                               (delete i (TeamInviteModel s)) (nextId s)).

(** A new [ObjectId], as the driver allots one to a document it creates. *)
Definition newObjectId : M ObjectId :=
  fun s => (Ok (nextId s),
            Build_Store (UserModel s) (TeamModel s) (TeamInviteModel s)
                        (S (nextId s))).

Definition UserModel_findById (i : ObjectId) : M (option User.t) :=
  gets (fun s => findById (UserModel s) i).
Definition TeamModel_findById (i : ObjectId) : M (option Team.t) :=
  gets (fun s => findById (TeamModel s) i).
Definition TeamModel_exists (n : string) : M bool :=
  gets (fun s => existsb (fun t => String.eqb (Team.name t) n) (TeamModel s)).
Definition TeamInviteModel_findOne (code : string) : M (option TeamInvite.t) :=
  gets (fun s => find (fun i => String.eqb (TeamInvite.inviteCode i) code)
                      (TeamInviteModel s)).

Definition InvalidJWT : Error := BadRequestError (withMessage "Invalid JWT").

(** The token check [Team.ts] writes in line at the head of its methods:
    [try { decodedJWT = jsonWebToken.verify(jwt, secret) } catch { throw new
    BadRequestError({ errorMessage: "Invalid JWT" }) }]. *)
Definition verifyInline (jwt : Token) : M JWTData.t :=
  match jsonWebToken.verify jwt with
  | Some d => ret d
  | None => throw InvalidJWT
  end.

(** Modelled from the spec: [verifyJWT] of [src/util], which the logging
    variant calls, is not among the sources.  The identity verifier returns
    the caller's identity, or fails with [AuthenticationError] on an
    invalid, expired or malformed token. *)
Definition verifyJWT (jwt : Token) : M JWTData.t :=
  match jsonWebToken.verify jwt with
  | Some d => ret d
  | None => throw AuthenticationError
  end.

(** What [getInvite] returns: the stored invite as it is (possibly [null])
    for an admin, the reduced view otherwise. *)
Inductive InviteView :=
| FullInvite (i : option TeamInvite.t)
| Basic (b : BasicInvite.t).

(** [member.teams], for an entry [member] of [team.members] as [findById]
    loads it: an identifier, which has no [teams]. *)
Definition memberTeams (member : ObjectId) : option (list ObjectId) := None.

(** [for (const member of team.members) { member.teams = member.teams.splice(
    member.teams.indexOf(team), 1); member.save(); }]: the loop fails on
    [member.teams.splice] at the first member. *)
Fixpoint spliceTeamOfMembers (team : ObjectId) (ms : list ObjectId) : M unit :=
  match ms with
  | [] => ret tt
  | member :: rest =>
      teams <- deref (memberTeams member) ;;
      let _ := fst (JS.splice teams (JS.indexOf teams team) 1) in
      spliceTeamOfMembers team rest
  end.

(** ** [src/services/Team.ts] *)

Module TeamService.

(** The Team schema requires an owner (a team always has exactly one):
    [TeamModel.create] with a [null] owner is rejected, which the code
    turns into [InternalServerError]. *)
Definition createTeam (jwt : Token) (teamName : string)
  : M (string * ObjectId) :=
  teamExists <- TeamModel_exists (JS.toLowerCase teamName) ;;
  if (teamExists : bool)
  then throw (ConflictError (withCode "error_team_exists"))
  else (
    decodedJWT <- verifyInline jwt ;;
    owner <- UserModel_findById (JWTData.id decodedJWT) ;;
    match owner with
    | None => throw InternalServerError
    | Some owner =>
        i <- newObjectId ;;
        let team :=
          Team.mk i (JS.toLowerCase teamName) (User._id owner) []
                  Socials.none [] in
        saveTeam team ;;
        let owner :=
          User.set_teams owner (User.teams owner ++ [Team._id team])%list in
        saveTeam team ;;
        saveUser owner ;;
        ret (Team.name team, Team._id team)
    end).

Definition getTeam (jwt : Token) (teamID : ObjectId) : M Team.t :=
  decodedJWT <- verifyInline jwt ;;
  found <- UserModel_findById (JWTData.id decodedJWT) ;;
  user <- deref found ;;
  team <- TeamModel_findById teamID ;;
  match team with
  | None => throw (NotFoundError (withCode "error_team_not_found"))
  | Some team =>
      if (negb (User.isAdmin user) && negb (Team.inTeam team user))%bool
      then throw (UnauthorizedError (withCode "error_invalid_permissionseeeee"))
      else ret team
  end.

Definition updateTeam (jwt : Token) (teamID : ObjectId)
                      (newDetails : TeamDetailsUpdateData.t) : M Team.t :=
  team <- getTeam jwt teamID ;;
  let team :=
    match TeamDetailsUpdateData.name newDetails with
    | Some n =>
        if JS.truthy_string (Some n) then Team.set_name team n else team
    | None => team
    end in
  let twitter :=
    match TeamDetailsUpdateData.socials newDetails with
    | Some s => TeamDetailsUpdateData.twitter s
    | None => None
    end in
  let website :=
    match TeamDetailsUpdateData.socials newDetails with
    | Some s => TeamDetailsUpdateData.website s
    | None => None
    end in
  let team :=
    if JS.truthy_string twitter
    then Team.set_socials team (Socials.set_twitter (Team.socials team) twitter)
    else team in
  let team :=
    if JS.truthy_string website
    then Team.set_socials team (Socials.set_website (Team.socials team) twitter)
    else team in
  saveTeam team ;;
  ret team.

(** The elements of the array handed to [Promise.all] are evaluated in
    order: [getTeam] is started, then [jsonWebToken.decode(jwt).id] is
    read, which throws at once when [decode] returned [null]. *)
Definition updateOwner (jwt : Token) (teamID newOwnerID : ObjectId)
  : M Team.t :=
  match jsonWebToken.decode jwt with
  | None => throw TypeError
  | Some decodedJWT =>
      team <- getTeam jwt teamID ;;
      r1 <- UserModel_findById (JWTData.id decodedJWT) ;;
      r2 <- UserModel_findById newOwnerID ;;
      oldOwner <- deref r1 ;;
      newOwner <- deref r2 ;;
      (if negb (JWTData.isAdmin decodedJWT)
       then
         if negb (Team.inTeam team newOwner)
         then throw (BadRequestError (withMessage
                "New owner must be in team before transfer of ownership"))
         else if negb (Team.isOwner team oldOwner)
         then throw (BadRequestError
                (Build_ErrorBody (Some "error_user_not_owner")
                                 (Some "Cannot transfer ownership") None))
         else ret tt
       else ret tt) ;;
      let team := Team.set_owner team (User._id newOwner) in
      saveTeam team ;;
      ret team
  end.

(** [inviteCode] stands for [randomBytes(3).toString("hex")] and [now]
    for [new Date()].  An expiry, when given, is a date and so truthy; a
    [maxUses] of [0] is falsy and stored as [undefined]. *)
Definition createInvite (jwt : Token) (teamID : ObjectId)
                        (inviteOptions : InviteOptions.t)
                        (inviteCode : string) (now : Z) : M TeamInvite.t :=
  decodedJWT <- verifyInline jwt ;;
  r0 <- UserModel_findById (JWTData.id decodedJWT) ;;
  r1 <- TeamModel_findById teamID ;;
  user <- deref r0 ;;
  (if negb (User.isAdmin user)
   then
     team <- deref r1 ;;
     if negb (Team.isOwner team user)
     then throw (BadRequestError
            (Build_ErrorBody (Some "error_invalid_permissions")
                             (Some "Only the team owner can create invites")
                             None))
     else ret tt
   else ret tt) ;;
  team <- deref r1 ;;
  i <- newObjectId ;;
  let invite :=
    TeamInvite.mk i (Team._id team) inviteCode
      (InviteOptions.expiry inviteOptions)
      (if JS.truthy_number (InviteOptions.maxUses inviteOptions)
       then InviteOptions.maxUses inviteOptions else None)
      now (User._id user) [] in
  let team := Team.set_invites team (Team.invites team ++ [i])%list in
  saveInvite invite ;;
  saveTeam team ;;
  ret invite.

(** [jwt] is [None] for a request without a token ([undefined], or the
    empty string, both falsy). *)
Definition getInvite (jwt : option Token) (inviteID : string) (now : Z)
  : M InviteView :=
  invite <- TeamInviteModel_findOne inviteID ;;
  user <- match jwt with
          | Some jwt =>
              decodedJWT <- verifyInline jwt ;;
              UserModel_findById (JWTData.id decodedJWT)
          | None => ret None
          end ;;
  if negb (match user with Some u => User.isAdmin u | None => false end)
  then
    invite <- deref invite ;;
    if (JS.geq_undefined (Z.of_nat (List.length (TeamInvite.uses invite)))
                         (TeamInvite.maxUses invite)
        || JS.geq_undefined now (TeamInvite.expiry invite))%bool
    then throw (BadRequestError (withCode "error_expired_invite"))
    else ret (Basic (basicInvite invite))
  else ret (FullInvite invite).

Definition deleteInvite (jwt : Token) (inviteID : string) : M unit :=
  decodedJWT <- verifyInline jwt ;;
  user <- UserModel_findById (JWTData.id decodedJWT) ;;
  invite <- TeamInviteModel_findOne inviteID ;;
  match invite with
  | None => throw (NotFoundError (withMessage "Invite not found"))
  | Some invite =>
      team <- TeamModel_findById (TeamInvite.team invite) ;;
      user <- deref user ;;
      (if negb (User.isAdmin user)
       then
         team <- deref team ;;
         if negb (Team.isOwner team user)
         then throw (BadRequestError (withCode "error_invalid_permissions"))
         else ret tt
       else ret tt) ;;
      deleteInviteDoc invite
  end.

Definition useInvite (jwt : Token) (inviteID : string) : M Team.t :=
  decodedJWT <- verifyInline jwt ;;
  user <- UserModel_findById (JWTData.id decodedJWT) ;;
  invite <- TeamInviteModel_findOne inviteID ;;
  match invite with
  | None => throw (NotFoundError (withMessage "Invite not found"))
  | Some invite =>
      team <- TeamModel_findById (TeamInvite.team invite) ;;
      team <- deref team ;;
      user <- deref user ;;
      let team :=
        Team.set_members team (Team.members team ++ [User._id user])%list in
      let user :=
        User.set_teams user (User.teams user ++ [Team._id team])%list in
      let invite :=
        TeamInvite.set_uses invite
          (TeamInvite.uses invite ++ [User._id user])%list in
      saveTeam team ;;
      saveUser user ;;
      saveInvite invite ;;
      ret team
  end.

Definition leaveTeam (jwt : Token) (teamID : ObjectId) : M unit :=
  decodedJWT <- verifyInline jwt ;;
  user <- UserModel_findById (JWTData.id decodedJWT) ;;
  team <- TeamModel_findById teamID ;;
  match team with
  | None => throw (NotFoundError (withCode "error_team_not_found"))
  | Some team =>
      user <- deref user ;;
      if Team.isOwner team user
      then throw (ConflictError
             (Build_ErrorBody None (Some "Owner may not leave team")
                (Some "The owner of a team cannot leave it without first changing the owner to a different member")))
      else if negb (Team.inTeam team user)
      then throw (ConflictError
             (Build_ErrorBody (Some "error_not_in_team")
                              (Some "Cannot leave team") None))
      else
        let team :=
          Team.set_members team
            (fst (JS.splice (Team.members team)
                    (JS.indexOf (Team.members team) (User._id user)) 1)) in
        let user :=
          User.set_teams user
            (fst (JS.splice (User.teams user)
                    (JS.indexOf (User.teams user) (Team._id team)) 1)) in
        saveTeam team ;;
        saveUser user ;;
        ret tt
  end.

Definition deleteTeam (jwt : Token) (teamID : ObjectId) : M unit :=
  decodedJWT <- verifyInline jwt ;;
  r0 <- UserModel_findById (JWTData.id decodedJWT) ;;
  r1 <- TeamModel_findById teamID ;;
  user <- deref r0 ;;
  (if negb (User.isAdmin user)
   then
     team <- deref r1 ;;
     if negb (Team.isOwner team user)
     then throw (BadRequestError
            (Build_ErrorBody (Some "error_invalid_permissions")
                             (Some "Only the team owner can delete the team")
                             None))
     else ret tt
   else ret tt) ;;
  team <- deref r1 ;;
  let user :=
    User.set_teams user
      (fst (JS.splice (User.teams user)
              (JS.indexOf (User.teams user) (Team._id team)) 1)) in
  spliceTeamOfMembers (Team._id team) (Team.members team) ;;
  saveUser user ;;
  deleteTeamDoc team ;;
  ret tt.

End TeamService.

(** ** [src/unnamed/part_000]: the variant with logging

    The token is checked by [verifyJWT].  In [deleteInvite], [useInvite],
    [leaveTeam] and [deleteTeam] the [Promise.all] that loads the documents
    is not awaited: its [then] callback runs after the method body, so the
    variables it assigns are still [undefined] where the body reads them. *)

Module TeamServiceLogged.

Definition createTeam (jwt : Token) (teamName : string)
  : M (string * ObjectId) :=
  teamExists <- TeamModel_exists (JS.toLowerCase teamName) ;;
  if (teamExists : bool)
  then throw (ConflictError (withCode "error_team_exists"))
  else (
    decodedJWT <- verifyJWT jwt ;;
    owner <- UserModel_findById (JWTData.id decodedJWT) ;;
    match owner with
    | None => throw InternalServerError
    | Some owner =>
        i <- newObjectId ;;
        let team :=
          Team.mk i (JS.toLowerCase teamName) (User._id owner) []
                  Socials.none [] in
        saveTeam team ;;
        let owner :=
          User.set_teams owner (User.teams owner ++ [Team._id team])%list in
        saveTeam team ;;
        saveUser owner ;;
        ret (Team.name team, Team._id team)
    end).

Definition getTeam (jwt : Token) (teamID : ObjectId) : M Team.t :=
  decodedJWT <- verifyJWT jwt ;;
  found <- UserModel_findById (JWTData.id decodedJWT) ;;
  user <- deref found ;;
  team <- TeamModel_findById teamID ;;
  match team with
  | None => throw (NotFoundError (withCode "error_team_not_found"))
  | Some team =>
      if (negb (User.isAdmin user) && negb (Team.inTeam team user))%bool
      then throw (UnauthorizedError (withCode "error_invalid_permissions"))
      else ret team
  end.

Definition updateTeam (jwt : Token) (teamID : ObjectId)
                      (newDetails : TeamDetailsUpdateData.t) : M Team.t :=
  team <- getTeam jwt teamID ;;
  let team :=
    match TeamDetailsUpdateData.name newDetails with
    | Some n =>
        if JS.truthy_string (Some n) then Team.set_name team n else team
    | None => team
    end in
  let twitter :=
    match TeamDetailsUpdateData.socials newDetails with
    | Some s => TeamDetailsUpdateData.twitter s
    | None => None
    end in
  let website :=
    match TeamDetailsUpdateData.socials newDetails with
    | Some s => TeamDetailsUpdateData.website s
    | None => None
    end in
  let team :=
    if JS.truthy_string twitter
    then Team.set_socials team (Socials.set_twitter (Team.socials team) twitter)
    else team in
  let team :=
    if JS.truthy_string website
    then Team.set_socials team (Socials.set_website (Team.socials team) twitter)
    else team in
  saveTeam team ;;
  ret team.

Definition updateOwner (jwt : Token) (teamID newOwnerID : ObjectId)
  : M Team.t :=
  decodedJWT <- verifyJWT jwt ;;
  team <- getTeam jwt teamID ;;
  r1 <- UserModel_findById (JWTData.id decodedJWT) ;;
  r2 <- UserModel_findById newOwnerID ;;
  oldOwner <- deref r1 ;;
  newOwner <- deref r2 ;;
  (if negb (JWTData.isAdmin decodedJWT)
   then
     if negb (Team.inTeam team newOwner)
     then throw (BadRequestError (withMessage
            "New owner must be in team before transfer of ownership"))
     else if negb (Team.isOwner team oldOwner)
     then throw (BadRequestError
            (Build_ErrorBody (Some "error_user_not_owner")
                             (Some "Cannot transfer ownership") None))
     else ret tt
   else ret tt) ;;
  let team := Team.set_owner team (User._id newOwner) in
  saveTeam team ;;
  ret team.

Definition createInvite (jwt : Token) (teamID : ObjectId)
                        (inviteOptions : InviteOptions.t)
                        (inviteCode : string) (now : Z) : M TeamInvite.t :=
  decodedJWT <- verifyJWT jwt ;;
  r0 <- UserModel_findById (JWTData.id decodedJWT) ;;
  r1 <- TeamModel_findById teamID ;;
  user <- deref r0 ;;
  (if negb (User.isAdmin user)
   then
     team <- deref r1 ;;
     if negb (Team.isOwner team user)
     then throw (BadRequestError
            (Build_ErrorBody (Some "error_invalid_permissions")
                             (Some "Only the team owner can create invites")
                             None))
     else ret tt
   else ret tt) ;;
  team <- deref r1 ;;
  i <- newObjectId ;;
  let invite :=
    TeamInvite.mk i (Team._id team) inviteCode
      (InviteOptions.expiry inviteOptions)
      (if JS.truthy_number (InviteOptions.maxUses inviteOptions)
       then InviteOptions.maxUses inviteOptions else None)
      now (User._id user) [] in
  let team := Team.set_invites team (Team.invites team ++ [i])%list in
  saveInvite invite ;;
  saveTeam team ;;
  ret invite.

Definition getInvite (jwt : option Token) (inviteID : string) (now : Z)
  : M InviteView :=
  invite <- TeamInviteModel_findOne inviteID ;;
  user <- match jwt with
          | Some jwt =>
              decodedJWT <- verifyJWT jwt ;;
              UserModel_findById (JWTData.id decodedJWT)
          | None => ret None
          end ;;
  if negb (match user with Some u => User.isAdmin u | None => false end)
  then
    invite <- deref invite ;;
    if (JS.geq_undefined (Z.of_nat (List.length (TeamInvite.uses invite)))
                         (TeamInvite.maxUses invite)
        || JS.geq_undefined now (TeamInvite.expiry invite))%bool
    then throw (BadRequestError (withCode "error_expired_invite"))
    else ret (Basic (basicInvite invite))
  else ret (FullInvite invite).

Definition deleteInvite (jwt : Token) (inviteID : string) : M unit :=
  decodedJWT <- verifyJWT jwt ;;
  let user : option User.t := None in
  let invite : option TeamInvite.t := None in
  match invite with
  | None => throw (NotFoundError (withMessage "Invite not found"))
  | Some invite =>
      team <- TeamModel_findById (TeamInvite.team invite) ;;
      user <- deref user ;;
      (if negb (User.isAdmin user)
       then
         team <- deref team ;;
         if negb (Team.isOwner team user)
         then throw (BadRequestError (withCode "error_invalid_permissions"))
         else ret tt
       else ret tt) ;;
      deleteInviteDoc invite
  end.

Definition useInvite (jwt : Token) (inviteID : string) : M Team.t :=
  decodedJWT <- verifyJWT jwt ;;
  let user : option User.t := None in
  let invite : option TeamInvite.t := None in
  match invite with
  | None => throw (NotFoundError (withMessage "Invite not found"))
  | Some invite =>
      team <- TeamModel_findById (TeamInvite.team invite) ;;
      team <- deref team ;;
      user <- deref user ;;
      let team :=
        Team.set_members team (Team.members team ++ [User._id user])%list in
      let user :=
        User.set_teams user (User.teams user ++ [Team._id team])%list in
      let invite :=
        TeamInvite.set_uses invite
          (TeamInvite.uses invite ++ [User._id user])%list in
      saveTeam team ;;
      saveUser user ;;
      saveInvite invite ;;
      ret team
  end.

Definition leaveTeam (jwt : Token) (teamID : ObjectId) : M unit :=
  decodedJWT <- verifyJWT jwt ;;
  let user : option User.t := None in
  let team : option Team.t := None in
  match team with
  | None => throw (NotFoundError (withCode "error_team_not_found"))
  | Some team =>
      user <- deref user ;;
      if Team.isOwner team user
      then throw (ConflictError
             (Build_ErrorBody None (Some "Owner may not leave team")
                (Some "The owner of a team cannot leave it without first changing the owner to a different member")))
      else if negb (Team.inTeam team user)
      then throw (ConflictError
             (Build_ErrorBody (Some "error_not_in_team")
                              (Some "Cannot leave team") None))
      else
        let team :=
          Team.set_members team
            (fst (JS.splice (Team.members team)
                    (JS.indexOf (Team.members team) (User._id user)) 1)) in
        let user :=
          User.set_teams user
            (fst (JS.splice (User.teams user)
                    (JS.indexOf (User.teams user) (Team._id team)) 1)) in
        saveTeam team ;;
        saveUser user ;;
        ret tt
  end.

Definition deleteTeam (jwt : Token) (teamID : ObjectId) : M unit :=
  decodedJWT <- verifyJWT jwt ;;
  let r0 : option User.t := None in
  let r1 : option Team.t := None in
  user <- deref r0 ;;
  (if negb (User.isAdmin user)
   then
     team <- deref r1 ;;
     if negb (Team.isOwner team user)
     then throw (BadRequestError
            (Build_ErrorBody (Some "error_invalid_permissions")
                             (Some "Only the team owner can delete the team")
                             None))
     else ret tt
   else ret tt) ;;
  team <- deref r1 ;;
  let user :=
    User.set_teams user
      (fst (JS.splice (User.teams user)
              (JS.indexOf (User.teams user) (Team._id team)) 1)) in
  spliceTeamOfMembers (Team._id team) (Team.members team) ;;
  saveUser user ;;
  deleteTeamDoc team ;;
  ret tt.

End TeamServiceLogged.

(** ** Requests, and the states a sequence of requests reaches *)

Inductive Request :=
| CreateTeam (jwt : Token) (teamName : string)
| GetTeam (jwt : Token) (teamID : ObjectId)
| UpdateTeam (jwt : Token) (teamID : ObjectId) (d : TeamDetailsUpdateData.t)
| UpdateOwner (jwt : Token) (teamID newOwnerID : ObjectId)
| CreateInvite (jwt : Token) (teamID : ObjectId) (o : InviteOptions.t)
               (inviteCode : string) (now : Z)
| GetInvite (jwt : option Token) (inviteID : string) (now : Z)
| DeleteInvite (jwt : Token) (inviteID : string)
| UseInvite (jwt : Token) (inviteID : string)
| LeaveTeam (jwt : Token) (teamID : ObjectId)
| DeleteTeam (jwt : Token) (teamID : ObjectId).

(** The store a request leaves behind, whatever it answers. *)
Definition step (r : Request) (s : Store) : Store :=
  match r with
  | CreateTeam jwt n => snd (TeamService.createTeam jwt n s)
  | GetTeam jwt t => snd (TeamService.getTeam jwt t s)
  | UpdateTeam jwt t d => snd (TeamService.updateTeam jwt t d s)
  | UpdateOwner jwt t o => snd (TeamService.updateOwner jwt t o s)
  | CreateInvite jwt t o c now => snd (TeamService.createInvite jwt t o c now s)
  | GetInvite jwt c now => snd (TeamService.getInvite jwt c now s)
  | DeleteInvite jwt c => snd (TeamService.deleteInvite jwt c s)
  | UseInvite jwt c => snd (TeamService.useInvite jwt c s)
  | LeaveTeam jwt t => snd (TeamService.leaveTeam jwt t s)
  | DeleteTeam jwt t => snd (TeamService.deleteTeam jwt t s)
  end.

Definition run (rs : list Request) (s : Store) : Store :=
  fold_left (fun s r => step r s) rs s.

(** Registration is outside the service: a store of registered users with
    no team and no invite yet. *)
Definition registered (users : list (ObjectId * bool)) : Store :=
  Build_Store (map (fun u => User.mk (fst u) (snd u) []) users) [] []
              (S (fold_right Nat.max 0%nat (map fst users))).

Definition reachable (s : Store) : Prop :=
  exists users rs, s = run rs (registered users).

(** ** The invariants the specification names *)

(** An invite's redemption count does not exceed its max-use count. *)
Definition withinMaxUses (i : TeamInvite.t) : Prop :=
  forall m, TeamInvite.maxUses i = Some m ->
            Z.of_nat (List.length (TeamInvite.uses i)) <= m.

(** Team names are unique, case-insensitively. *)
Definition uniqueNames (s : Store) : Prop :=
  forall t1 t2, In t1 (TeamModel s) -> In t2 (TeamModel s) ->
    JS.toLowerCase (Team.name t1) = JS.toLowerCase (Team.name t2) ->
    Team._id t1 = Team._id t2.

(** No user record references team [t]. *)
Definition unreferenced (t : ObjectId) (s : Store) : Prop :=
  forall u, In u (UserModel s) -> ~ In t (User.teams u).

(** ** Scenarios

    Four registered users: Ada (1), Bob (2) and Cy (3), and the platform
    admin (4).  The first document created gets identifier 5. *)

Module Scenario.

Definition ada : Token := Signed (JWTData.mk 1%nat false).
Definition bob : Token := Signed (JWTData.mk 2%nat false).
Definition cy : Token := Signed (JWTData.mk 3%nat false).
Definition root : Token := Signed (JWTData.mk 4%nat true).

Definition start : Store :=
  registered [(1, false); (2, false); (3, false); (4, true)]%nat.

Definition oneUse : InviteOptions.t := InviteOptions.mk None (Some 1).
Definition noLimit : InviteOptions.t := InviteOptions.mk None None.

(** Ada owns team "alpha" (5). *)
Definition alphaOnly : Store :=
  run [CreateTeam ada "Alpha"] start.

(** Team "alpha" (5) with a single-use invite (6) that Bob has redeemed. *)
Definition alphaJoined : Store :=
  run [CreateTeam ada "Alpha";
       CreateInvite ada 5%nat oneUse "a1b2c3" 1000;
       UseInvite bob "a1b2c3"] start.

(** Ada owns "alpha" (5), Bob owns "beta" (6). *)
Definition alphaBeta : Store :=
  run [CreateTeam ada "alpha"; CreateTeam bob "beta"] start.

(** Ada owns "alpha" (5) and "beta" (6), and Cy joined both. *)
Definition cyJoinedBoth : Store :=
  run [CreateTeam ada "alpha"; CreateTeam ada "beta";
       CreateInvite ada 5%nat noLimit "0a0a0a" 1000;
       CreateInvite ada 6%nat noLimit "0b0b0b" 1000;
       UseInvite cy "0a0a0a"; UseInvite cy "0b0b0b"] start.

(** Ada owns "alpha" (5) and "beta" (6); Cy joined both and then left
    "alpha". *)
Definition cyLeftAlpha : Store :=
  run [CreateTeam ada "alpha"; CreateTeam ada "beta";
       CreateInvite ada 5%nat noLimit "0a0a0a" 1000;
       CreateInvite ada 6%nat noLimit "0b0b0b" 1000;
       UseInvite cy "0a0a0a"; UseInvite cy "0b0b0b";
       LeaveTeam cy 5%nat] start.

Definition renameToAlpha : TeamDetailsUpdateData.t :=
  TeamDetailsUpdateData.mk (Some "Alpha") None.

(** Ada owns team 5, created as "alpha" and renamed to "Alpha". *)
Definition alphaRenamed : Store :=
  run [CreateTeam ada "alpha"; UpdateTeam ada 5%nat renameToAlpha] start.

(** Team "alpha" (5) with a single-use invite (6) nobody has redeemed. *)
Definition alphaInvited : Store :=
  run [CreateTeam ada "Alpha";
       CreateInvite ada 5%nat oneUse "a1b2c3" 1000] start.

Definition bothSocials : TeamDetailsUpdateData.t :=
  TeamDetailsUpdateData.mk None
    (Some (TeamDetailsUpdateData.mkSocials (Some "ctfnote")
                                           (Some "https://ctfnote.org"))).

End Scenario.

(** ** Who calls, and when an invite is spent *)

(** [uses.length >= maxUses], for an invite whose max-use count is set. *)
Definition exhausted (i : TeamInvite.t) : Prop :=
  exists m, TeamInvite.maxUses i = Some m /\
            m <= Z.of_nat (List.length (TeamInvite.uses i)).

(** [now >= expiry], for an invite whose expiry is set. *)
Definition expired (now : Z) (i : TeamInvite.t) : Prop :=
  exists e, TeamInvite.expiry i = Some e /\ e <= now.

(** The caller of [getInvite] is an admin: the token verifies and names a
    stored user whose admin flag is set. *)
Definition adminCaller (jwt : option Token) (s : Store) : Prop :=
  exists tok d u,
    jwt = Some tok /\ jsonWebToken.verify tok = Some d /\
    findById (UserModel s) (JWTData.id d) = Some u /\ User.isAdmin u = true.

(** The caller is anonymous, or holds a token that verifies and does not
    name an admin. *)
Definition plainCaller (jwt : option Token) (s : Store) : Prop :=
  jwt = None \/
  exists tok d,
    jwt = Some tok /\ jsonWebToken.verify tok = Some d /\
    forall u, findById (UserModel s) (JWTData.id d) = Some u ->
              User.isAdmin u = false.

(** What [updateOwner] asks of a caller who is not an admin: the proposed
    owner is already in the team, and the caller owns it. *)
Definition transferAllowed (s : Store) (caller teamID newOwnerID : ObjectId)
  : Prop :=
  exists team oldOwner newOwner,
    findById (TeamModel s) teamID = Some team /\
    findById (UserModel s) caller = Some oldOwner /\
    findById (UserModel s) newOwnerID = Some newOwner /\
    Team.inTeam team newOwner = true /\
    Team.isOwner team oldOwner = true.

(** What is said of a [leaveTeam] that succeeds: the stored team is left
    with the departing caller as its only member, and the caller's stored
    record with the departed team as its only team. *)
Definition leavesOnlyRemoved
  (jwt : Token) (teamID : ObjectId) (s' : Store) : Prop :=
  exists d,
    jsonWebToken.verify jwt = Some d /\
    (exists team', findById (TeamModel s') teamID = Some team' /\
                   Team.members team' = [JWTData.id d]) /\
    (exists user', findById (UserModel s') (JWTData.id d) = Some user' /\
                   User.teams user' = [teamID]).

(** ** What a request answers, and what the service keeps of a user *)

Definition thrownBy {A : Type} (o : Outcome A * Store) : option Error :=
  match fst o with
  | Ok _ => None
  | Throw e => Some e
  end.

(** The error a request is answered with, if it is. *)
Definition thrown (r : Request) (s : Store) : option Error :=
  match r with
  | CreateTeam jwt n => thrownBy (TeamService.createTeam jwt n s)
  | GetTeam jwt t => thrownBy (TeamService.getTeam jwt t s)
  | UpdateTeam jwt t d => thrownBy (TeamService.updateTeam jwt t d s)
  | UpdateOwner jwt t o => thrownBy (TeamService.updateOwner jwt t o s)
  | CreateInvite jwt t o c now =>
      thrownBy (TeamService.createInvite jwt t o c now s)
  | GetInvite jwt c now => thrownBy (TeamService.getInvite jwt c now s)
  | DeleteInvite jwt c => thrownBy (TeamService.deleteInvite jwt c s)
  | UseInvite jwt c => thrownBy (TeamService.useInvite jwt c s)
  | LeaveTeam jwt t => thrownBy (TeamService.leaveTeam jwt t s)
  | DeleteTeam jwt t => thrownBy (TeamService.deleteTeam jwt t s)
  end.

(** The identity and the admin flag of every stored user, in store order. *)
Definition accounts (s : Store) : list (ObjectId * bool) :=
  map (fun u => (User._id u, User.isAdmin u)) (UserModel s).

(** ** [src/unnamed/part_001]: the HTTP handlers of the CTF routes

    A handler is given the request, [res] and [next]; what it does with
    them is the sequence of its effects.  [CTFService] ([src/services/CTF])
    is not among the sources: its methods are the fields of a record, and
    the promise a method returns is the [Answer] it settles with. *)

Module CTFRoutes.

Inductive Answer (A : Type) :=
| Resolved (a : A)
| Rejected (e : Error).
Arguments Resolved {A} a.
Arguments Rejected {A} e.

Record CTFService (Body CTF : Type) := {
  createCTF : string -> string -> Body -> Answer CTF;
  listCTFs : string -> string -> option bool -> Answer (list CTF);
  getCTF : string -> string -> string -> Answer CTF;
  archiveCTF : string -> string -> string -> Answer CTF;
  unarchiveCTF : string -> string -> string -> Answer CTF
}.
Arguments createCTF {Body CTF} _ _ _ _.
Arguments listCTFs {Body CTF} _ _ _ _.
Arguments getCTF {Body CTF} _ _ _ _.
Arguments archiveCTF {Body CTF} _ _ _ _.
Arguments unarchiveCTF {Body CTF} _ _ _ _.

(** The parts of an Express request the handlers read; [includeArchived]
    is [req.body.includeArchived], absent when [undefined] or [null]. *)
Record Req (Body : Type) := {
  authorization : option string;
  teamID : string;
  ctfID : string;
  body : Body;
  includeArchived : option bool
}.
Arguments authorization {Body} _.
Arguments teamID {Body} _.
Arguments ctfID {Body} _.
Arguments body {Body} _.
Arguments includeArchived {Body} _.

(** What a handler does: it calls [next(err)], it calls a service method
    with a token, it sends a response, or it throws. *)
Inductive Effect (R : Type) :=
| Next (e : Error)
| Called (token : string)
| Send (status : nat) (payload : R)
| Raise (e : Error).
Arguments Next {R} e.
Arguments Called {R} token.
Arguments Send {R} status payload.
Arguments Raise {R} e.

(** [s.slice(7)] *)
Definition slice7 (s : string) : string :=
  substring 7 (String.length s - 7) s.

Definition missingAuthorization : Error :=
  UnauthorizedError
    (Build_ErrorBody (Some "error_unauthorized") (Some "Missing authorization")
                     None).

(** [if (!req.headers.authorization) next(...)]: the handler goes on after
    the call. *)
Definition guard {R : Type} (h : option string) : list (Effect R) :=
  if JS.truthy_string h then [] else [Next missingAuthorization].

(** [service(...).then(x => res.status(n).send(x)).catch(err => next(err))] *)
Definition settle {R : Type} (status : nat) (a : Answer R) : list (Effect R) :=
  match a with
  | Resolved x => [Send status x]
  | Rejected e => [Next e]
  end.

(** [req.headers.authorization.slice(7)] throws when the header is
    [undefined]; the service method is then never entered. *)
Definition withToken {R : Type} (h : option string)
  (k : string -> list (Effect R)) : list (Effect R) :=
  match h with
  | Some a => Called (slice7 a) :: k (slice7 a)
  | None => [Raise TypeError]
  end.

Section Handlers.
Context {Body CTF : Type} (_CTFService : CTFService Body CTF).

Definition createCTFHandler (req : Req Body) : list (Effect CTF) :=
  (guard (authorization req) ++
   withToken (authorization req) (fun token =>
     settle 201 (createCTF _CTFService token (teamID req) (body req))))%list.

Definition listCTFsHandler (req : Req Body) : list (Effect (list CTF)) :=
  (guard (authorization req) ++
   withToken (authorization req) (fun token =>
     settle 200 (listCTFs _CTFService token (teamID req)
                          (includeArchived req))))%list.

Definition getCTFHandler (req : Req Body) : list (Effect CTF) :=
  (guard (authorization req) ++
   withToken (authorization req) (fun token =>
     settle 200 (getCTF _CTFService token (teamID req) (ctfID req))))%list.

Definition archiveCTFHandler (req : Req Body) : list (Effect CTF) :=
  (guard (authorization req) ++
   withToken (authorization req) (fun token =>
     settle 200 (archiveCTF _CTFService token (teamID req) (ctfID req))))%list.

Definition unarchiveCTFHandler (req : Req Body) : list (Effect CTF) :=
  (guard (authorization req) ++
   withToken (authorization req) (fun token =>
     settle 200 (unarchiveCTF _CTFService token (teamID req) (ctfID req))))%list.

End Handlers.

End CTFRoutes.

(** Two answers are the same, or are the two spellings of the refusal of
    [getTeam]: the one of [Team.ts] and the one of the logging variant. *)
Definition sameUpToCode {A : Type} (plain logged : Outcome A * Store) : Prop :=
  plain = logged \/
  exists s,
    plain = (Throw (UnauthorizedError
                      (withCode "error_invalid_permissionseeeee")), s) /\
    logged = (Throw (UnauthorizedError
                       (withCode "error_invalid_permissions")), s).

(** A stand-in for the CTF service: it knows one token and answers with
    the identifiers it was given. *)
Module HandlerScenario.

Definition known (token : string) (x : string) : CTFRoutes.Answer string :=
  if String.eqb token "t0k3n" then CTFRoutes.Resolved x
  else CTFRoutes.Rejected InvalidJWT.

Definition service : CTFRoutes.CTFService string string :=
  CTFRoutes.Build_CTFService string string
    (fun token team body => known token body)
    (fun token team includeArchived =>
       if String.eqb token "t0k3n" then CTFRoutes.Resolved [team]
       else CTFRoutes.Rejected InvalidJWT)
    (fun token team ctf => known token ctf)
    (fun token team ctf => known token ctf)
    (fun token team ctf => known token ctf).

Definition request (header : option string) : CTFRoutes.Req string :=
  CTFRoutes.Build_Req string header "team5" "ctf9" "{}" None.

End HandlerScenario.

(** * Properties *)

(** ** Collections and arrays *)

Ltac unfold_service :=
  unfold UserModel_findById, TeamModel_findById, TeamModel_exists,
    TeamInviteModel_findOne, saveUser, saveTeam, saveInvite, deleteTeamDoc,
    deleteInviteDoc, verifyInline, verifyJWT, deref, newObjectId in *;
  unfold gets, modify, bind, ret, throw in *;
  cbv beta in *.

Section CollectionFacts.
Context {A : Type} `{Document A}.

Lemma findById_id (c : list A) (i : ObjectId) (d : A) :
  findById c i = Some d -> doc_id d = i.
Proof.
  unfold findById. intros F. apply find_some in F as [_ E].
  now apply Nat.eqb_eq.
Qed.

Lemma findById_In (c : list A) (i : ObjectId) (d : A) :
  findById c i = Some d -> In d c.
Proof.
  unfold findById. intros F. now apply find_some in F.
Qed.

Lemma findById_save_same (d : A) (c : list A) :
  findById (save d c) (doc_id d) = Some d.
Proof.
  induction c as [|x r IH]; simpl.
  - now rewrite Nat.eqb_refl.
  - destruct (doc_id x =? doc_id d)%nat eqn:E; simpl.
    + now rewrite Nat.eqb_refl.
    + now rewrite E.
Qed.

Lemma findById_save_other (d : A) (c : list A) (i : ObjectId) :
  doc_id d <> i -> findById (save d c) i = findById c i.
Proof.
  intros N. induction c as [|x r IH]; simpl.
  - apply Nat.eqb_neq in N. now rewrite N.
  - destruct (doc_id x =? doc_id d)%nat eqn:E; simpl.
    + apply Nat.eqb_eq in E. rewrite E.
      apply Nat.eqb_neq in N. now rewrite N.
    + now rewrite IH.
Qed.
End CollectionFacts.

Lemma indexOf_split (l : list nat) (x : nat) :
  In x l ->
  exists l1 l2, l = (l1 ++ x :: l2)%list /\
                JS.indexOf l x = Z.of_nat (List.length l1).
Proof.
  induction l as [|y r IH]; simpl; [tauto|].
  intros HIn. destruct (y =? x)%nat eqn:E.
  - apply Nat.eqb_eq in E. subst y. now exists [], r.
  - assert (In x r) as HIn' by (destruct HIn as [->|]; [now rewrite Nat.eqb_refl in E | assumption]).
    destruct (IH HIn') as (l1 & l2 & -> & Hi).
    exists (y :: l1), l2. split; [reflexivity|].
    rewrite Hi. destruct (Z.of_nat (List.length l1) <? 0) eqn:L.
    + apply Z.ltb_lt in L. lia.
    + simpl List.length. lia.
Qed.

Lemma indexOf_absent (l : list nat) (x : nat) :
  ~ In x l -> JS.indexOf l x = -1.
Proof.
  induction l as [|y r IH]; simpl; [reflexivity|].
  intros N. destruct (y =? x)%nat eqn:E.
  - apply Nat.eqb_eq in E. tauto.
  - rewrite IH by tauto. reflexivity.
Qed.

(** [l.splice(l.indexOf(x), 1)] returns [[x]] when [x] is in [l]. *)
Lemma splice_indexOf_present (l : list nat) (x : nat) :
  In x l -> fst (JS.splice l (JS.indexOf l x) 1) = [x].
Proof.
  intros HIn. destruct (indexOf_split l x HIn) as (l1 & l2 & -> & Hi).
  unfold JS.splice. rewrite Hi. simpl fst.
  rewrite length_app. simpl List.length.
  set (n := List.length l1) in *. set (m := List.length l2).
  destruct (Z.of_nat n <? 0) eqn:L; [apply Z.ltb_lt in L; lia|].
  replace (Z.min (Z.of_nat n) (Z.of_nat (n + S m))) with (Z.of_nat n) by lia.
  replace (Z.min (Z.max 1 0) (Z.of_nat (n + S m) - Z.of_nat n)) with 1 by lia.
  rewrite Nat2Z.id. subst n.
  rewrite skipn_app, Nat.sub_diag, skipn_all. reflexivity.
Qed.

(** With [indexOf] at [-1] the call returns the last element alone. *)
Lemma splice_indexOf_absent (l : list nat) (x y : nat) :
  ~ In x (l ++ [y]) ->
  fst (JS.splice (l ++ [y])%list (JS.indexOf (l ++ [y])%list x) 1) = [y].
Proof.
  intros N. rewrite indexOf_absent by assumption.
  unfold JS.splice. simpl fst. rewrite length_app. simpl List.length.
  set (n := List.length l).
  replace (-1 <? 0) with true by reflexivity.
  replace (Z.max (Z.of_nat (n + 1) + -1) 0) with (Z.of_nat n) by lia.
  replace (Z.min (Z.max 1 0) (Z.of_nat (n + 1) - Z.of_nat n)) with 1 by lia.
  rewrite Nat2Z.id. subst n.
  rewrite skipn_app, Nat.sub_diag, skipn_all. reflexivity.
Qed.

Lemma inTeam_not_owner (team : Team.t) (user : User.t) :
  Team.inTeam team user = true -> Team.isOwner team user = false ->
  In (User._id user) (Team.members team).
Proof.
  unfold Team.inTeam. intros HT HO. rewrite HO, orb_false_r in HT.
  apply existsb_exists in HT as (m & Hm & E).
  apply Nat.eqb_eq in E. now subst m.
Qed.

(** ** [createTeam] *)

(** For a request in ASCII: when its lower-cased form is the name of a
    stored team, [createTeam] throws [ConflictError "error_team_exists"],
    whatever the token, and the store is left as it was. *)
Lemma createTeam_existing_name
  (jwt : Token) (teamName : string) (s : Store) (t : Team.t) :
  JS.isAscii teamName = true ->
  In t (TeamModel s) ->
  Team.name t = JS.toLowerCase teamName ->
  TeamService.createTeam jwt teamName s
  = (Throw (ConflictError (withCode "error_team_exists")), s).
Proof.
  intros _ HIn HName.
  assert (existsb (fun x => String.eqb (Team.name x) (JS.toLowerCase teamName))
                  (TeamModel s) = true) as HExists.
  { apply existsb_exists. exists t. split; [assumption|].
    rewrite HName. apply String.eqb_refl. }
  unfold TeamService.createTeam. unfold_service.
  rewrite HExists. reflexivity.
Qed.

(** C8 fails on the code.  Ada's team was created as "alpha" and renamed to
    "Alpha", which [updateTeam] stores as given.  [createTeam] looks for
    the lower-cased request among the stored names as they are: asked for
    "Alpha", the very name of the stored team, or for "alpha", it finds
    nothing, throws no [ConflictError] and creates a second team, so that
    two stored teams bear the same name up to case. *)
Theorem createTeam_misses_stored_capitals :
  reachable Scenario.alphaRenamed /\
  findById (TeamModel Scenario.alphaRenamed) 5
  = Some (Team.mk 5 "Alpha" 1 [] Socials.none []) /\
  (exists s',
     TeamService.createTeam Scenario.bob "Alpha" Scenario.alphaRenamed
     = (Ok ("alpha", 6%nat), s') /\
     findById (TeamModel s') 5 = Some (Team.mk 5 "Alpha" 1 [] Socials.none []) /\
     findById (TeamModel s') 6 = Some (Team.mk 6 "alpha" 2 [] Socials.none []) /\
     ~ uniqueNames s') /\
  (exists s',
     TeamService.createTeam Scenario.bob "alpha" Scenario.alphaRenamed
     = (Ok ("alpha", 6%nat), s') /\
     findById (TeamModel s') 6 = Some (Team.mk 6 "alpha" 2 [] Socials.none [])).
Proof.
  split; [now exists [(1, false); (2, false); (3, false); (4, true)]%nat,
                     [CreateTeam Scenario.ada "alpha";
                      UpdateTeam Scenario.ada 5 Scenario.renameToAlpha]|].
  split; [reflexivity|]. split.
  - eexists. split; [vm_compute; reflexivity|].
    do 2 (split; [reflexivity|]).
    intros H.
    specialize (H (Team.mk 5 "Alpha" 1 [] Socials.none [])
                  (Team.mk 6 "alpha" 2 [] Socials.none [])).
    discriminate H.
    + left. reflexivity.
    + right. left. reflexivity.
    + reflexivity.
  - eexists. split; [vm_compute; reflexivity|]. reflexivity.
Qed.

(** ** [getInvite] *)

(** C6. For a stored invite that is exhausted or expired, [getInvite] throws
    [BadRequestError "error_expired_invite"] to an anonymous or non-admin
    caller, so nothing of the invite is returned; to an admin caller it
    returns the stored invite in full, spent or not. *)
Theorem getInvite_spent_invite
  (jwt : option Token) (inviteID : string) (now : Z) (s : Store)
  (invite : TeamInvite.t) :
  find (fun i => String.eqb (TeamInvite.inviteCode i) inviteID)
       (TeamInviteModel s) = Some invite ->
  (plainCaller jwt s ->
   exhausted invite \/ expired now invite ->
   TeamService.getInvite jwt inviteID now s
   = (Throw (BadRequestError (withCode "error_expired_invite")), s))
  /\
  (adminCaller jwt s ->
   TeamService.getInvite jwt inviteID now s = (Ok (FullInvite (Some invite)), s)).
Proof.
  intros HFind. split.
  - intros HCaller HSpent.
    assert ((JS.geq_undefined (Z.of_nat (List.length (TeamInvite.uses invite)))
                              (TeamInvite.maxUses invite)
             || JS.geq_undefined now (TeamInvite.expiry invite))%bool = true)
      as HCheck.
    { apply orb_true_iff.
      destruct HSpent as [(m & Hm & Hle) | (e & He & Hle)].
      - left. rewrite Hm. simpl. now apply Z.leb_le.
      - right. rewrite He. simpl. now apply Z.leb_le. }
    unfold TeamService.getInvite. unfold_service. rewrite HFind.
    destruct HCaller as [-> | (tok & d & -> & HV & HU)].
    + simpl. rewrite HCheck. reflexivity.
    + rewrite HV.
      destruct (findById (UserModel s) (JWTData.id d)) as [u|] eqn:EU; simpl.
      * rewrite (HU u eq_refl). simpl. rewrite HCheck. reflexivity.
      * rewrite HCheck. reflexivity.
  - intros (tok & d & u & -> & HV & HU & HA).
    unfold TeamService.getInvite. unfold_service.
    rewrite HFind, HV, HU. simpl. rewrite HA. reflexivity.
Qed.

Lemma getInvite_spent_invite_witness :
  TeamService.getInvite None "a1b2c3" 2000 Scenario.alphaJoined
  = (Throw (BadRequestError (withCode "error_expired_invite")),
     Scenario.alphaJoined)
  /\ TeamService.getInvite (Some Scenario.root) "a1b2c3" 2000 Scenario.alphaJoined
     = (Ok (FullInvite
              (Some (TeamInvite.mk 6 5 "a1b2c3" None (Some 1) 1000 1 [2%nat]))),
        Scenario.alphaJoined).
Proof.
  assert (find (fun i => String.eqb (TeamInvite.inviteCode i) "a1b2c3")
               (TeamInviteModel Scenario.alphaJoined)
          = Some (TeamInvite.mk 6 5 "a1b2c3" None (Some 1) 1000 1 [2%nat]))
    as HFind by reflexivity.
  split.
  - apply (proj1 (getInvite_spent_invite None "a1b2c3" 2000
                    Scenario.alphaJoined _ HFind)).
    + left. reflexivity.
    + left. exists 1. split; [reflexivity | simpl; lia].
  - apply (proj2 (getInvite_spent_invite (Some Scenario.root) "a1b2c3" 2000
                    Scenario.alphaJoined _ HFind)).
    exists Scenario.root, (JWTData.mk 4 true), (User.mk 4 true []).
    repeat split; reflexivity.
Defined.

(** ** [updateOwner] *)

(** [getTeam] only reads: it hands back the store it was given. *)
Lemma getTeam_store (jwt : Token) (teamID : ObjectId) (s : Store) :
  snd (TeamService.getTeam jwt teamID s) = s.
Proof.
  unfold TeamService.getTeam. unfold_service.
  destruct (jsonWebToken.verify jwt) as [d|]; [|reflexivity].
  destruct (findById (UserModel s) (JWTData.id d)) as [u|]; [|reflexivity].
  destruct (findById (TeamModel s) teamID) as [t|]; [|reflexivity].
  destruct (negb (User.isAdmin u) && negb (Team.inTeam t u))%bool; reflexivity.
Qed.

Lemma getTeam_Ok (jwt : Token) (teamID : ObjectId) (s s' : Store) (t : Team.t) :
  TeamService.getTeam jwt teamID s = (Ok t, s') ->
  s' = s /\ findById (TeamModel s) teamID = Some t.
Proof.
  intros E. pose proof (getTeam_store jwt teamID s) as HS.
  rewrite E in HS. simpl in HS. split; [assumption|].
  revert E. unfold TeamService.getTeam. unfold_service.
  destruct (jsonWebToken.verify jwt) as [d|]; [|discriminate].
  destruct (findById (UserModel s) (JWTData.id d)) as [u|]; [|discriminate].
  destruct (findById (TeamModel s) teamID) as [t0|]; [|discriminate].
  destruct (negb (User.isAdmin u) && negb (Team.inTeam t0 u))%bool;
    [discriminate|].
  intros E. now inversion E.
Qed.

(** An [updateOwner] that throws has written nothing. *)
Lemma updateOwner_Throw_store
  (jwt : Token) (teamID newOwnerID : ObjectId) (s s' : Store) (e : Error) :
  TeamService.updateOwner jwt teamID newOwnerID s = (Throw e, s') -> s' = s.
Proof.
  unfold TeamService.updateOwner.
  destruct (jsonWebToken.decode jwt) as [d|];
    [|unfold throw; intros E; now inversion E].
  unfold bind at 1.
  pose proof (getTeam_store jwt teamID s) as HS.
  destruct (TeamService.getTeam jwt teamID s) as [[t|e0] s0]; simpl in HS;
    subst s0; [|intros E; now inversion E].
  unfold_service.
  destruct (findById (UserModel s) (JWTData.id d)) as [o|];
    [|intros E; now inversion E].
  destruct (findById (UserModel s) newOwnerID) as [n|];
    [|intros E; now inversion E].
  destruct (JWTData.isAdmin d); simpl; [discriminate|].
  destruct (Team.inTeam t n); simpl; [|intros E; now inversion E].
  destruct (Team.isOwner t o); simpl; [discriminate|intros E; now inversion E].
Qed.

(** C7. For a caller whose token does not carry the admin flag,
    [updateOwner] succeeds only if the proposed owner is already in the
    team and the caller is the team's owner, and the team it returns is
    then owned by the proposed owner; if either condition fails, an error
    is thrown and the store, hence the team's owner, is unchanged. *)
Theorem updateOwner_non_admin
  (jwt : Token) (teamID newOwnerID : ObjectId) (s : Store) (d : JWTData.t) :
  jsonWebToken.decode jwt = Some d ->
  JWTData.isAdmin d = false ->
  (forall team' s',
     TeamService.updateOwner jwt teamID newOwnerID s = (Ok team', s') ->
     transferAllowed s (JWTData.id d) teamID newOwnerID /\
     Team.owner team' = newOwnerID)
  /\
  (~ transferAllowed s (JWTData.id d) teamID newOwnerID ->
   exists e, TeamService.updateOwner jwt teamID newOwnerID s = (Throw e, s)).
Proof.
  intros HD HA.
  assert (forall team' s',
     TeamService.updateOwner jwt teamID newOwnerID s = (Ok team', s') ->
     transferAllowed s (JWTData.id d) teamID newOwnerID /\
     Team.owner team' = newOwnerID) as HOk.
  { intros team' s'. unfold TeamService.updateOwner. rewrite HD.
    unfold bind at 1.
    destruct (TeamService.getTeam jwt teamID s) as [[t|e0] s0] eqn:EG;
      [|discriminate].
    apply getTeam_Ok in EG as [-> HT].
    unfold_service.
    destruct (findById (UserModel s) (JWTData.id d)) as [o|] eqn:EO;
      [|discriminate].
    destruct (findById (UserModel s) newOwnerID) as [n|] eqn:EN;
      [|discriminate].
    rewrite HA. simpl.
    destruct (Team.inTeam t n) eqn:EIn; simpl; [|discriminate].
    destruct (Team.isOwner t o) eqn:EOwn; simpl; [|discriminate].
    intros E. inversion E; subst. split.
    - exists t, o, n. repeat split; assumption.
    - simpl. exact (findById_id _ _ _ EN). }
  split; [exact HOk|].
  intros HNot.
  destruct (TeamService.updateOwner jwt teamID newOwnerID s) as [[t|e] s'] eqn:E.
  - destruct (HOk t s' eq_refl) as [HAllowed _]. contradiction.
  - apply updateOwner_Throw_store in E as E'. subst s'. now exists e.
Qed.

Lemma updateOwner_non_admin_witness :
  (forall team' s',
     TeamService.updateOwner Scenario.ada 5 2 Scenario.alphaJoined
     = (Ok team', s') ->
     transferAllowed Scenario.alphaJoined 1 5 2 /\ Team.owner team' = 2%nat)
  /\
  (~ transferAllowed Scenario.alphaJoined 1 5 2 ->
   exists e, TeamService.updateOwner Scenario.ada 5 2 Scenario.alphaJoined
             = (Throw e, Scenario.alphaJoined)).
Proof.
  apply (updateOwner_non_admin Scenario.ada 5 2 Scenario.alphaJoined
           (JWTData.mk 1 false)); reflexivity.
Defined.

(** Such a transfer does go through: Ada hands "alpha" to Bob, who had
    joined it. *)
Example updateOwner_ada_to_bob :
  fst (TeamService.updateOwner Scenario.ada 5 2 Scenario.alphaJoined)
  = Ok (Team.mk 5 "alpha" 2 [2%nat] Socials.none [6%nat]).
Proof. reflexivity. Qed.

(** Cy, who is neither in the team nor its owner, cannot take it over. *)
Example updateOwner_outsider :
  TeamService.updateOwner Scenario.bob 5 3 Scenario.alphaJoined
  = (Throw (BadRequestError (withMessage
       "New owner must be in team before transfer of ownership")),
     Scenario.alphaJoined).
Proof. reflexivity. Qed.

(** ** [leaveTeam] *)

Ltac saved_document :=
  match goal with
  | |- findById (save ?d ?c) _ = _ => exact (findById_save_same d c)
  end.

(** What [splice] returns is what [leaveTeam] stores.  Whenever it
    succeeds, the caller is a non-owner member of the stored team and the
    team's stored members list afterwards is the one-element list holding
    the departing caller; where the departed team was on the caller's
    teams list, that list afterwards is the one-element list holding the
    departed team. *)
Lemma leaveTeam_stores_removed_entries
  (jwt : Token) (teamID : ObjectId) (s s' : Store) :
  TeamService.leaveTeam jwt teamID s = (Ok tt, s') ->
  exists d user team,
    jsonWebToken.verify jwt = Some d /\
    findById (UserModel s) (JWTData.id d) = Some user /\
    findById (TeamModel s) teamID = Some team /\
    Team.isOwner team user = false /\
    Team.inTeam team user = true /\
    (exists team', findById (TeamModel s') teamID = Some team' /\
                   Team.members team' = [JWTData.id d]) /\
    (In teamID (User.teams user) -> leavesOnlyRemoved jwt teamID s').
Proof.
  unfold TeamService.leaveTeam. unfold_service.
  destruct (jsonWebToken.verify jwt) as [d|] eqn:EV; [|discriminate].
  destruct (findById (TeamModel s) teamID) as [team|] eqn:ET;
    [|destruct (findById (UserModel s) (JWTData.id d)); discriminate].
  destruct (findById (UserModel s) (JWTData.id d)) as [user|] eqn:EU;
    [|discriminate].
  destruct (Team.isOwner team user) eqn:EOwn; [discriminate|].
  destruct (Team.inTeam team user) eqn:EIn; cbn [negb]; [|discriminate].
  intros E. injection E as <-. cbn [TeamModel UserModel].
  pose proof (findById_id _ _ _ ET) as HTid.
  pose proof (findById_id _ _ _ EU) as HUid.
  unfold doc_id, Team_Document in HTid. unfold doc_id, User_Document in HUid.
  pose proof (inTeam_not_owner team user EIn EOwn) as HMem.
  assert (exists team',
            findById
              (save (Team.set_members team
                       (fst (JS.splice (Team.members team)
                               (JS.indexOf (Team.members team) (User._id user)) 1)))
                    (TeamModel s)) teamID = Some team' /\
            Team.members team' = [JWTData.id d]) as HTeam'.
  { eexists. split.
    - rewrite <- HTid. saved_document.
    - unfold Team.set_members. cbn [Team.members].
      rewrite splice_indexOf_present by assumption. now rewrite HUid. }
  exists d, user, team. do 5 (split; [first [assumption | reflexivity]|]).
  split; [exact HTeam'|].
  intros HOn. exists d. split; [assumption|]. split; [exact HTeam'|].
  cbn [TeamModel UserModel]. eexists. split.
  - rewrite <- HUid. saved_document.
  - unfold User.set_teams. cbn [User.teams]. rewrite HTid.
    exact (splice_indexOf_present _ _ HOn).
Qed.

Lemma leaveTeam_stores_removed_entries_witness :
  exists d user team,
    jsonWebToken.verify Scenario.cy = Some d /\
    findById (UserModel Scenario.cyJoinedBoth) (JWTData.id d) = Some user /\
    findById (TeamModel Scenario.cyJoinedBoth) 5 = Some team /\
    Team.isOwner team user = false /\
    Team.inTeam team user = true /\
    (exists team', findById (TeamModel Scenario.cyLeftAlpha) 5 = Some team' /\
                   Team.members team' = [JWTData.id d]) /\
    (In 5%nat (User.teams user) ->
     leavesOnlyRemoved Scenario.cy 5 Scenario.cyLeftAlpha).
Proof.
  apply (leaveTeam_stores_removed_entries Scenario.cy 5 Scenario.cyJoinedBoth
           Scenario.cyLeftAlpha).
  vm_compute. reflexivity.
Defined.

(** C10 fails on the code, in a store the service reaches by itself.  Cy
    joined "alpha" and "beta" and left "alpha", which cut Cy's teams list
    down to "alpha".  Cy is still a member of "beta"; leaving it succeeds,
    [indexOf] answers [-1], unchecked, and [splice(-1, 1)] hands back the
    last entry of the list: Cy's stored teams list is "alpha" again, not
    the one-element list holding the departed "beta". *)
Theorem leaveTeam_beta_keeps_alpha :
  reachable Scenario.cyLeftAlpha /\
  exists s',
    TeamService.leaveTeam Scenario.cy 6 Scenario.cyLeftAlpha = (Ok tt, s') /\
    findById (UserModel s') 3 = Some (User.mk 3 false [5%nat]) /\
    ~ leavesOnlyRemoved Scenario.cy 6 s'.
Proof.
  split.
  - exists [(1, false); (2, false); (3, false); (4, true)]%nat. eexists.
    unfold Scenario.cyLeftAlpha, Scenario.start. reflexivity.
  - eexists. split; [vm_compute; reflexivity|]. split; [reflexivity|].
    intros (d & HV & _ & (u & HU & HTeams)).
    injection HV as <-. vm_compute in HU. injection HU as <-.
    discriminate HTeams.
Qed.

(** ** [useInvite] *)

Lemma reachable_run (users : list (ObjectId * bool)) (rs : list Request) :
  reachable (run rs (registered users)).
Proof. now exists users, rs. Qed.

(** [useInvite] reads neither [maxUses] nor [expiry]: whenever the invite,
    its team and the caller are stored, the caller is appended to the
    invite's use list. *)
Lemma useInvite_appends
  (jwt : Token) (inviteID : string) (s : Store) (d : JWTData.t)
  (user : User.t) (invite : TeamInvite.t) (team : Team.t) :
  jsonWebToken.verify jwt = Some d ->
  findById (UserModel s) (JWTData.id d) = Some user ->
  find (fun i => String.eqb (TeamInvite.inviteCode i) inviteID)
       (TeamInviteModel s) = Some invite ->
  findById (TeamModel s) (TeamInvite.team invite) = Some team ->
  exists team' s',
    TeamService.useInvite jwt inviteID s = (Ok team', s') /\
    findById (TeamInviteModel s') (TeamInvite._id invite)
    = Some (TeamInvite.set_uses invite
              (TeamInvite.uses invite ++ [User._id user])%list).
Proof.
  intros HV HU HI HT.
  unfold TeamService.useInvite. unfold_service.
  rewrite HV, HU, HI, HT.
  do 2 eexists. split; [reflexivity|].
  cbn [TeamInviteModel]. saved_document.
Qed.

(** C1 fails on the code.  Ada's invite to "alpha" allows one use and Bob
    has redeemed it, so the bound holds of every stored invite.  Cy then
    redeems the same code: [useInvite] succeeds, and the stored invite
    counts two uses against a [maxUses] of one. *)
Theorem useInvite_exceeds_maxUses :
  reachable Scenario.alphaJoined /\
  (forall i, In i (TeamInviteModel Scenario.alphaJoined) -> withinMaxUses i) /\
  exists team s',
    TeamService.useInvite Scenario.cy "a1b2c3" Scenario.alphaJoined
    = (Ok team, s') /\
    reachable s' /\
    exists i, In i (TeamInviteModel s') /\
              TeamInvite.maxUses i = Some 1 /\
              TeamInvite.uses i = [2; 3]%nat /\
              ~ withinMaxUses i.
Proof.
  split; [apply reachable_run|]. split.
  - intros i [<- | []] m Hm. injection Hm as <-. simpl. lia.
  - do 2 eexists. split; [vm_compute; reflexivity|]. split.
    + apply (reachable_run
               [(1, false); (2, false); (3, false); (4, true)]%nat
               [CreateTeam Scenario.ada "Alpha";
                CreateInvite Scenario.ada 5 Scenario.oneUse "a1b2c3" 1000;
                UseInvite Scenario.bob "a1b2c3";
                UseInvite Scenario.cy "a1b2c3"]).
    + eexists. split; [left; reflexivity|].
      split; [reflexivity|]. split; [reflexivity|].
      intros H. specialize (H 1 eq_refl). simpl in H. lia.
Qed.

(** ** [createTeam] keeps names unique *)

Lemma lower_ascii_idem (c : ascii) :
  JS.lower_ascii (JS.lower_ascii c) = JS.lower_ascii c.
Proof. destruct c as [[] [] [] [] [] [] [] []]; reflexivity. Qed.

Lemma toLowerCase_idem (n : string) :
  JS.toLowerCase (JS.toLowerCase n) = JS.toLowerCase n.
Proof.
  induction n as [|c r IH]; simpl; [reflexivity|].
  now rewrite lower_ascii_idem, IH.
Qed.

Lemma In_save {A : Type} `{Document A} (d x : A) (c : list A) :
  In x (save d c) -> x = d \/ In x c.
Proof.
  induction c as [|y r IH]; simpl.
  - intros [<- | []]. now left.
  - destruct (doc_id y =? doc_id d)%nat; simpl.
    + intros [<- | HIn]; [now left | right; now right].
    + intros [<- | HIn]; [right; now left|].
      destruct (IH HIn) as [-> | HIn']; [now left | right; now right].
Qed.

(** X23. Where [updateTeam] stores a name unchecked, [createTeam] does check:
    for a name in ASCII, over a store whose names are in ASCII, in lower
    case, as [createTeam] writes them, and unique, it keeps the names
    unique. *)
Lemma createTeam_preserves_uniqueNames (jwt : Token) (n : string) (s : Store) :
  JS.isAscii n = true ->
  (forall t, In t (TeamModel s) -> JS.isAscii (Team.name t) = true) ->
  uniqueNames s ->
  (forall t, In t (TeamModel s) -> JS.toLowerCase (Team.name t) = Team.name t) ->
  uniqueNames (snd (TeamService.createTeam jwt n s)).
Proof.
  intros _ _ HU HL. unfold TeamService.createTeam. unfold_service.
  destruct (existsb _ (TeamModel s)) eqn:EX; [exact HU|].
  destruct (jsonWebToken.verify jwt) as [d|]; [|exact HU].
  destruct (findById (UserModel s) (JWTData.id d)) as [o|]; [|exact HU].
  cbn [snd]. unfold uniqueNames. cbn [TeamModel nextId UserModel].
  set (team := Team.mk (nextId s) (JS.toLowerCase n) (User._id o) []
                       Socials.none []).
  assert (forall t, In t (TeamModel s) ->
            JS.toLowerCase (Team.name t) <> JS.toLowerCase (Team.name team))
    as HFresh.
  { intros t HIn E. cbn [Team.name team] in E.
    rewrite toLowerCase_idem, (HL t HIn) in E.
    assert (existsb (fun x => String.eqb (Team.name x) (JS.toLowerCase n))
                    (TeamModel s) = true) as EX'.
    { apply existsb_exists. exists t. split; [assumption|].
      rewrite E. apply String.eqb_refl. }
    congruence. }
  intros t1 t2 H1 H2 E.
  apply In_save in H1 as [-> | H1]; apply In_save in H2 as [-> | H2];
    try reflexivity.
  - apply In_save in H2 as [-> | H2]; [reflexivity|].
    symmetry in E. now apply HFresh in E.
  - apply In_save in H1 as [-> | H1]; [reflexivity|].
    now apply HFresh in E.
  - apply In_save in H1 as [-> | H1]; apply In_save in H2 as [-> | H2];
      try reflexivity.
    + symmetry in E. now apply HFresh in E.
    + now apply HFresh in E.
    + now apply HU.
Qed.

(** ** [deleteTeam] *)

(** C2 fails on the code.  Ada deletes her team "alpha": the call succeeds
    and the team record is gone, but her teams list was overwritten with
    what [splice] returned, the removed reference itself, so her record
    still references the deleted team. *)
Theorem deleteTeam_leaves_references :
  exists s',
    TeamService.deleteTeam Scenario.ada 5 Scenario.alphaOnly = (Ok tt, s') /\
    findById (TeamModel s') 5 = None /\
    findById (UserModel s') 1 = Some (User.mk 1 false [5%nat]) /\
    ~ unreferenced 5 s'.
Proof.
  eexists. split; [vm_compute; reflexivity|].
  do 2 (split; [reflexivity|]).
  intros H. apply (H (User.mk 1 false [5%nat])); left; reflexivity.
Qed.

(** ** [updateTeam] *)

(** C3 fails on the code.  Ada patches both social links of her team; the
    stored and returned team has the patch's twitter handle as its website,
    not the patch's website. *)
Theorem updateTeam_website_gets_twitter :
  exists team s',
    TeamService.updateTeam Scenario.ada 5 Scenario.bothSocials Scenario.alphaOnly
    = (Ok team, s') /\
    findById (TeamModel s') 5 = Some team /\
    Socials.twitter (Team.socials team) = Some "ctfnote" /\
    Socials.website (Team.socials team) = Some "ctfnote" /\
    Socials.website (Team.socials team) <> Some "https://ctfnote.org".
Proof.
  do 2 eexists. split; [vm_compute; reflexivity|].
  do 3 (split; [reflexivity|]). discriminate.
Qed.

(** C4 fails on the code.  With "alpha" and "beta" stored, names are
    unique.  Bob renames "beta" to "Alpha": [updateTeam] checks nothing and
    stores the name as given, and two teams now share a name up to case. *)
Theorem updateTeam_rename_breaks_uniqueNames :
  reachable Scenario.alphaBeta /\
  uniqueNames Scenario.alphaBeta /\
  exists team s',
    TeamService.updateTeam Scenario.bob 6 Scenario.renameToAlpha
                           Scenario.alphaBeta
    = (Ok team, s') /\
    Team.name team = "Alpha" /\
    ~ uniqueNames s'.
Proof.
  split; [apply reachable_run|]. split.
  - intros t1 t2 [<- | [<- | []]] [<- | [<- | []]] E;
      first [reflexivity | discriminate E].
  - do 2 eexists. split; [vm_compute; reflexivity|]. split; [reflexivity|].
    intros H.
    specialize (H (Team.mk 5 "alpha" 1 [] Socials.none [])
                  (Team.mk 6 "Alpha" 2 [] Socials.none [])).
    discriminate H.
    + left. reflexivity.
    + right. left. reflexivity.
    + reflexivity.
Qed.

(** ** The token check *)

(** X22. Every method of [Team.ts] but [createTeam], [getInvite] and
    [updateOwner] starts with the token check: with a token that does not
    verify it throws "Invalid JWT" and the store plays no part. *)
Lemma invalid_token_first (jwt : Token) (s : Store) :
  jsonWebToken.verify jwt = None ->
  (forall teamID, TeamService.getTeam jwt teamID s = (Throw InvalidJWT, s)) /\
  (forall teamID d,
     TeamService.updateTeam jwt teamID d s = (Throw InvalidJWT, s)) /\
  (forall teamID o c now,
     TeamService.createInvite jwt teamID o c now s = (Throw InvalidJWT, s)) /\
  (forall c, TeamService.deleteInvite jwt c s = (Throw InvalidJWT, s)) /\
  (forall c, TeamService.useInvite jwt c s = (Throw InvalidJWT, s)) /\
  (forall teamID, TeamService.leaveTeam jwt teamID s = (Throw InvalidJWT, s)) /\
  (forall teamID, TeamService.deleteTeam jwt teamID s = (Throw InvalidJWT, s)).
Proof.
  intros HV.
  unfold TeamService.updateTeam, TeamService.getTeam, TeamService.createInvite,
    TeamService.deleteInvite, TeamService.useInvite, TeamService.leaveTeam,
    TeamService.deleteTeam.
  unfold_service. rewrite HV. repeat split.
Qed.

(** [updateOwner] reads the payload of the token without checking it: a
    string that is no token makes it fail on the [null] payload. *)
Example updateOwner_garbage (t o : ObjectId) (s : Store) :
  TeamService.updateOwner Garbage t o s = (Throw TypeError, s).
Proof. reflexivity. Qed.

(** C5 fails on the code.  [createTeam] looks the name up before it checks
    the token: with a string that is no token at all and the name of a
    stored team, it throws [ConflictError "error_team_exists"], not the
    "Invalid JWT" error, and what it answers depends on the store. *)
Theorem createTeam_conflict_before_token :
  jsonWebToken.verify Garbage = None /\
  TeamService.createTeam Garbage "ALPHA" Scenario.alphaOnly
  = (Throw (ConflictError (withCode "error_team_exists")), Scenario.alphaOnly) /\
  TeamService.createTeam Garbage "ALPHA" Scenario.start
  = (Throw InvalidJWT, Scenario.start).
Proof. repeat split. Qed.

(** ** The two variants *)

(** On [createTeam], [createInvite] and [getInvite] the variants agree for
    a token that verifies, and on [getInvite] without a token. *)
Lemma variants_agree (jwt : Token) (d : JWTData.t) :
  jsonWebToken.verify jwt = Some d ->
  (forall n s,
     TeamServiceLogged.createTeam jwt n s = TeamService.createTeam jwt n s) /\
  (forall t o c now s,
     TeamServiceLogged.createInvite jwt t o c now s
     = TeamService.createInvite jwt t o c now s) /\
  (forall c now s,
     TeamServiceLogged.getInvite (Some jwt) c now s
     = TeamService.getInvite (Some jwt) c now s) /\
  (forall c now s,
     TeamServiceLogged.getInvite None c now s
     = TeamService.getInvite None c now s).
Proof.
  intros HV.
  unfold TeamServiceLogged.createTeam, TeamService.createTeam,
    TeamServiceLogged.createInvite, TeamService.createInvite,
    TeamServiceLogged.getInvite, TeamService.getInvite,
    verifyJWT, verifyInline.
  rewrite HV. repeat split.
Qed.

(** In the logging variant the documents are read before they are loaded:
    [useInvite], [deleteInvite] and [leaveTeam] never get past their
    not-found check, [deleteTeam] fails on [user.isAdmin], and none of
    them writes. *)
Lemma logged_never_loads (jwt : Token) (s : Store) :
  (forall c, exists e, TeamServiceLogged.useInvite jwt c s = (Throw e, s)) /\
  (forall c, exists e, TeamServiceLogged.deleteInvite jwt c s = (Throw e, s)) /\
  (forall t, exists e, TeamServiceLogged.leaveTeam jwt t s = (Throw e, s)) /\
  (forall t, exists e, TeamServiceLogged.deleteTeam jwt t s = (Throw e, s)).
Proof.
  unfold TeamServiceLogged.useInvite, TeamServiceLogged.deleteInvite,
    TeamServiceLogged.leaveTeam, TeamServiceLogged.deleteTeam.
  unfold_service.
  destruct (jsonWebToken.verify jwt); repeat split; intros; eexists; reflexivity.
Qed.

(** C9 fails on the code.  The variants answer differently to the same
    request on the same store.  Asked for a team by an outsider, [Team.ts]
    throws [UnauthorizedError] with the code
    "error_invalid_permissionseeeee", the logging variant with
    "error_invalid_permissions".  When Cy redeems a stored invite,
    [Team.ts] adds Cy to the team and writes three documents; the logging
    variant throws [NotFoundError] and writes nothing. *)
Theorem variants_differ :
  TeamService.getTeam Scenario.cy 5 Scenario.alphaOnly
  = (Throw (UnauthorizedError (withCode "error_invalid_permissionseeeee")),
     Scenario.alphaOnly) /\
  TeamServiceLogged.getTeam Scenario.cy 5 Scenario.alphaOnly
  = (Throw (UnauthorizedError (withCode "error_invalid_permissions")),
     Scenario.alphaOnly) /\
  fst (TeamService.useInvite Scenario.cy "a1b2c3" Scenario.alphaJoined)
  = Ok (Team.mk 5 "alpha" 1 [2; 3]%nat Socials.none [6%nat]) /\
  snd (TeamService.useInvite Scenario.cy "a1b2c3" Scenario.alphaJoined)
  <> Scenario.alphaJoined /\
  TeamServiceLogged.useInvite Scenario.cy "a1b2c3" Scenario.alphaJoined
  = (Throw (NotFoundError (withMessage "Invite not found")),
     Scenario.alphaJoined).
Proof.
  do 3 (split; [reflexivity|]). split; [|reflexivity].
  vm_compute. discriminate.
Qed.

(** * Further properties of the team service *)

(** ** More on collections *)

Section MoreCollectionFacts.
Context {A : Type} `{Document A}.

(** Saving a document as it was loaded changes nothing. *)
Lemma save_loaded (c : list A) (i : ObjectId) (d : A) :
  findById c i = Some d -> save d c = c.
Proof.
  induction c as [|x r IH]; simpl; [discriminate|].
  destruct (doc_id x =? i)%nat eqn:E.
  - intros F. injection F as ->. now rewrite Nat.eqb_refl.
  - intros F. pose proof (findById_id r i d F) as Hd.
    rewrite Hd, E. now rewrite (IH F).
Qed.

Lemma findById_delete (c : list A) (d : A) :
  findById (delete d c) (doc_id d) = None.
Proof.
  induction c as [|x r IH]; simpl; [reflexivity|].
  destruct (doc_id x =? doc_id d)%nat eqn:E; simpl; [exact IH|].
  now rewrite E.
Qed.
End MoreCollectionFacts.

(** The loop over the members passes over an empty list and fails at the
    first member, writing nothing. *)
Lemma spliceTeamOfMembers_run (t : ObjectId) (ms : list ObjectId) (s : Store) :
  spliceTeamOfMembers t ms s
  = match ms with
    | [] => (Ok tt, s)
    | _ :: _ => (Throw TypeError, s)
    end.
Proof. destruct ms; reflexivity. Qed.

Lemma not_inTeam (team : Team.t) (user : User.t) :
  Team.owner team <> User._id user ->
  ~ In (User._id user) (Team.members team) ->
  Team.inTeam team user = false.
Proof.
  intros HO HM. unfold Team.inTeam, Team.isOwner.
  apply orb_false_iff. split.
  - apply not_true_is_false. intros E.
    apply existsb_exists in E as (m & Hm & E). apply Nat.eqb_eq in E.
    subst m. contradiction.
  - now apply Nat.eqb_neq.
Qed.

(** ** Who may read and change a team *)

(** X1. A stored user who is not an admin, does not own the team and is not
    among its members is refused by [getTeam] with [UnauthorizedError], and
    with the same error by the two methods built on it, [updateTeam] and
    [updateOwner], whatever the patch or the proposed owner; nothing is
    written. *)
Theorem outsider_is_refused
  (jwt : Token) (teamID : ObjectId) (s : Store) (d : JWTData.t)
  (user : User.t) (team : Team.t) :
  jsonWebToken.verify jwt = Some d ->
  findById (UserModel s) (JWTData.id d) = Some user ->
  findById (TeamModel s) teamID = Some team ->
  User.isAdmin user = false ->
  Team.owner team <> User._id user ->
  ~ In (User._id user) (Team.members team) ->
  let refusal :=
    (Throw (UnauthorizedError (withCode "error_invalid_permissionseeeee")), s) in
  TeamService.getTeam jwt teamID s = refusal /\
  (forall patch, TeamService.updateTeam jwt teamID patch s = refusal) /\
  (forall newOwnerID, TeamService.updateOwner jwt teamID newOwnerID s = refusal).
Proof.
  intros HV HU HT HA HO HM refusal.
  pose proof (not_inTeam team user HO HM) as HIn.
  assert (TeamService.getTeam jwt teamID s = refusal) as HG.
  { unfold TeamService.getTeam. unfold_service.
    rewrite HV, HU, HT, HA, HIn. reflexivity. }
  split; [exact HG|]. split.
  - intros patch. unfold TeamService.updateTeam, bind. now rewrite HG.
  - intros o. unfold TeamService.updateOwner.
    destruct jwt as [|d'|d']; try discriminate HV.
    cbn [jsonWebToken.decode]. unfold bind. now rewrite HG.
Qed.

Lemma outsider_is_refused_witness :
  TeamService.getTeam Scenario.cy 5 Scenario.alphaJoined
  = (Throw (UnauthorizedError (withCode "error_invalid_permissionseeeee")),
     Scenario.alphaJoined) /\
  (forall patch,
     TeamService.updateTeam Scenario.cy 5 patch Scenario.alphaJoined
     = (Throw (UnauthorizedError (withCode "error_invalid_permissionseeeee")),
        Scenario.alphaJoined)) /\
  (forall newOwnerID,
     TeamService.updateOwner Scenario.cy 5 newOwnerID Scenario.alphaJoined
     = (Throw (UnauthorizedError (withCode "error_invalid_permissionseeeee")),
        Scenario.alphaJoined)).
Proof.
  apply (outsider_is_refused Scenario.cy 5 Scenario.alphaJoined
           (JWTData.mk 3 false) (User.mk 3 false [])
           (Team.mk 5 "alpha" 1 [2%nat] Socials.none [6%nat]));
    try reflexivity.
  - simpl. discriminate.
  - simpl. intros [E | []]. discriminate E.
Defined.

(** ** Requests that fail, and requests that only read *)

Ltac break_match :=
  match goal with
  | |- context [match ?x with _ => _ end] =>
      lazymatch x with
      | context [match _ with _ => _ end] => fail
      | _ => destruct x eqn:?
      end
  end.

Ltac service_cases :=
  unfold_service; repeat (break_match; cbn [fst snd negb]);
  try discriminate; try reflexivity.

(** X2. A request that is answered with an error has written nothing: in
    the ten methods of [Team.ts] every [throw] comes before the first
    [save] or [delete].  The one failure that can follow a write,
    [createTeam] finding no user for the token after [TeamModel.create],
    is the [InternalServerError] left aside here. *)
Theorem failed_request_writes_nothing (r : Request) (s : Store) (e : Error) :
  thrown r s = Some e -> e <> InternalServerError -> step r s = s.
Proof.
  destruct r; unfold thrown, step, thrownBy.
  - unfold TeamService.createTeam. service_cases.
  - rewrite getTeam_store. reflexivity.
  - unfold TeamService.updateTeam, bind.
    pose proof (getTeam_store jwt teamID s) as HS.
    destruct (TeamService.getTeam jwt teamID s) as [[t|e0] s0];
      simpl in HS; subst s0; [|reflexivity].
    unfold saveTeam, modify, ret. cbn [fst]. discriminate.
  - destruct (TeamService.updateOwner jwt teamID newOwnerID s) as [[t|e0] s0]
      eqn:E; cbn [fst snd]; [discriminate|].
    intros _ _. exact (updateOwner_Throw_store _ _ _ _ _ _ E).
  - unfold TeamService.createInvite. service_cases.
  - unfold TeamService.getInvite. service_cases.
  - unfold TeamService.deleteInvite. service_cases.
  - unfold TeamService.useInvite. service_cases.
  - unfold TeamService.leaveTeam. service_cases.
  - unfold TeamService.deleteTeam. unfold_service.
    destruct (jsonWebToken.verify jwt) as [d|]; [|reflexivity].
    destruct (findById (UserModel s) (JWTData.id d)) as [u|]; [|reflexivity].
    destruct (findById (TeamModel s) teamID) as [t|];
      [|destruct (negb (User.isAdmin u)); reflexivity].
    destruct (negb (User.isAdmin u)); cbn [fst snd];
      [destruct (negb (Team.isOwner t u)); cbn [fst snd]; [reflexivity|]|];
      rewrite spliceTeamOfMembers_run; destruct (Team.members t);
      cbn [fst snd]; first [discriminate | reflexivity].
Qed.

Lemma failed_request_writes_nothing_witness :
  step (UseInvite Scenario.cy "ffffff") Scenario.alphaJoined
  = Scenario.alphaJoined.
Proof.
  apply (failed_request_writes_nothing (UseInvite Scenario.cy "ffffff")
           Scenario.alphaJoined
           (NotFoundError (withMessage "Invite not found"))).
  - reflexivity.
  - discriminate.
Defined.

(** X3. [getTeam] and [getInvite] only read: whatever the token, the target
    and the clock, and whether they answer or throw, the store they leave
    is the store they were given. *)
Theorem reads_leave_the_store (s : Store) :
  (forall jwt teamID, snd (TeamService.getTeam jwt teamID s) = s) /\
  (forall jwt inviteID now, snd (TeamService.getInvite jwt inviteID now s) = s).
Proof.
  split.
  - intros jwt teamID. unfold TeamService.getTeam. service_cases.
  - intros jwt inviteID now. unfold TeamService.getInvite. service_cases.
Qed.

(** ** [leaveTeam] refusals *)

(** X4. [leaveTeam] refuses the team's owner with [ConflictError] "Owner
    may not leave team", also when the owner is listed among the members,
    and refuses a user who is neither owner nor member with
    [ConflictError "error_not_in_team"]; in both cases nothing is
    written. *)
Theorem leaveTeam_refusals
  (jwt : Token) (teamID : ObjectId) (s : Store) (d : JWTData.t)
  (user : User.t) (team : Team.t) :
  jsonWebToken.verify jwt = Some d ->
  findById (UserModel s) (JWTData.id d) = Some user ->
  findById (TeamModel s) teamID = Some team ->
  (Team.owner team = User._id user ->
   TeamService.leaveTeam jwt teamID s
   = (Throw (ConflictError
        (Build_ErrorBody None (Some "Owner may not leave team")
           (Some "The owner of a team cannot leave it without first changing the owner to a different member"))),
      s))
  /\
  (Team.owner team <> User._id user ->
   ~ In (User._id user) (Team.members team) ->
   TeamService.leaveTeam jwt teamID s
   = (Throw (ConflictError
        (Build_ErrorBody (Some "error_not_in_team") (Some "Cannot leave team")
                         None)),
      s)).
Proof.
  intros HV HU HT. split.
  - intros HO. unfold TeamService.leaveTeam. unfold_service.
    rewrite HV, HU, HT. unfold Team.isOwner. rewrite HO, Nat.eqb_refl.
    reflexivity.
  - intros HO HM. pose proof (not_inTeam team user HO HM) as HIn.
    unfold TeamService.leaveTeam. unfold_service.
    rewrite HV, HU, HT, HIn.
    unfold Team.isOwner. apply Nat.eqb_neq in HO. rewrite HO. reflexivity.
Qed.

Lemma leaveTeam_refusals_witness :
  TeamService.leaveTeam Scenario.ada 5 Scenario.alphaJoined
  = (Throw (ConflictError
       (Build_ErrorBody None (Some "Owner may not leave team")
          (Some "The owner of a team cannot leave it without first changing the owner to a different member"))),
     Scenario.alphaJoined)
  /\
  TeamService.leaveTeam Scenario.cy 5 Scenario.alphaJoined
  = (Throw (ConflictError
       (Build_ErrorBody (Some "error_not_in_team") (Some "Cannot leave team")
                        None)),
     Scenario.alphaJoined).
Proof.
  split.
  - apply (proj1 (leaveTeam_refusals Scenario.ada 5 Scenario.alphaJoined
                    (JWTData.mk 1 false) (User.mk 1 false [5%nat])
                    (Team.mk 5 "alpha" 1 [2%nat] Socials.none [6%nat])
                    eq_refl eq_refl eq_refl)).
    reflexivity.
  - apply (proj2 (leaveTeam_refusals Scenario.cy 5 Scenario.alphaJoined
                    (JWTData.mk 3 false) (User.mk 3 false [])
                    (Team.mk 5 "alpha" 1 [2%nat] Socials.none [6%nat])
                    eq_refl eq_refl eq_refl)).
    + simpl. discriminate.
    + simpl. intros [E | []]. discriminate E.
Defined.

(** ** A team that is not stored *)

(** X5. For a stored caller and a team identifier that names no stored
    team, [getTeam], [updateTeam], [updateOwner] and [leaveTeam] throw
    [NotFoundError "error_team_not_found"], while [createInvite] and
    [deleteTeam], which do not test the lookup, fail with the runtime's
    [TypeError]; none of them writes. *)
Theorem missing_team
  (jwt : Token) (teamID : ObjectId) (s : Store) (d : JWTData.t) (user : User.t) :
  jsonWebToken.verify jwt = Some d ->
  findById (UserModel s) (JWTData.id d) = Some user ->
  findById (TeamModel s) teamID = None ->
  let notFound := NotFoundError (withCode "error_team_not_found") in
  TeamService.getTeam jwt teamID s = (Throw notFound, s) /\
  (forall patch, TeamService.updateTeam jwt teamID patch s = (Throw notFound, s)) /\
  (forall o, TeamService.updateOwner jwt teamID o s = (Throw notFound, s)) /\
  TeamService.leaveTeam jwt teamID s = (Throw notFound, s) /\
  (forall o c now,
     TeamService.createInvite jwt teamID o c now s = (Throw TypeError, s)) /\
  TeamService.deleteTeam jwt teamID s = (Throw TypeError, s).
Proof.
  intros HV HU HT notFound.
  assert (TeamService.getTeam jwt teamID s = (Throw notFound, s)) as HG.
  { unfold TeamService.getTeam. unfold_service. now rewrite HV, HU, HT. }
  split; [exact HG|]. split; [|split; [|split; [|split]]].
  - intros patch. unfold TeamService.updateTeam, bind. now rewrite HG.
  - intros o. unfold TeamService.updateOwner.
    destruct jwt as [|d'|d']; try discriminate HV.
    cbn [jsonWebToken.decode]. unfold bind. now rewrite HG.
  - unfold TeamService.leaveTeam. unfold_service. now rewrite HV, HU, HT.
  - intros o c now. unfold TeamService.createInvite. unfold_service.
    rewrite HV, HU, HT. destruct (negb (User.isAdmin user)); reflexivity.
  - unfold TeamService.deleteTeam. unfold_service.
    rewrite HV, HU, HT. destruct (negb (User.isAdmin user)); reflexivity.
Qed.

Lemma missing_team_witness :
  let notFound := NotFoundError (withCode "error_team_not_found") in
  TeamService.getTeam Scenario.bob 9 Scenario.alphaJoined
  = (Throw notFound, Scenario.alphaJoined) /\
  (forall patch, TeamService.updateTeam Scenario.bob 9 patch Scenario.alphaJoined
                 = (Throw notFound, Scenario.alphaJoined)) /\
  (forall o, TeamService.updateOwner Scenario.bob 9 o Scenario.alphaJoined
             = (Throw notFound, Scenario.alphaJoined)) /\
  TeamService.leaveTeam Scenario.bob 9 Scenario.alphaJoined
  = (Throw notFound, Scenario.alphaJoined) /\
  (forall o c now,
     TeamService.createInvite Scenario.bob 9 o c now Scenario.alphaJoined
     = (Throw TypeError, Scenario.alphaJoined)) /\
  TeamService.deleteTeam Scenario.bob 9 Scenario.alphaJoined
  = (Throw TypeError, Scenario.alphaJoined).
Proof.
  apply (missing_team Scenario.bob 9 Scenario.alphaJoined
           (JWTData.mk 2 false) (User.mk 2 false [5%nat])); reflexivity.
Defined.

(** ** Joining and creating, then reading *)

(** X6. A user who has redeemed an invite can read the team: after a
    [useInvite] that succeeds, [getTeam] with the same token answers with
    the team [useInvite] returned, and that team lists the caller last
    among its members. *)
Theorem useInvite_then_getTeam
  (jwt : Token) (inviteID : string) (s s' : Store) (team' : Team.t) :
  TeamService.useInvite jwt inviteID s = (Ok team', s') ->
  TeamService.getTeam jwt (Team._id team') s' = (Ok team', s') /\
  exists d before,
    jsonWebToken.verify jwt = Some d /\
    Team.members team' = (before ++ [JWTData.id d])%list.
Proof.
  unfold TeamService.useInvite. unfold_service.
  destruct (jsonWebToken.verify jwt) as [d|] eqn:HV; [|discriminate].
  destruct (find _ (TeamInviteModel s)) as [invite|];
    [|destruct (findById (UserModel s) (JWTData.id d)); discriminate].
  destruct (findById (UserModel s) (JWTData.id d)) as [user|] eqn:HU;
    [|destruct (findById (TeamModel s) (TeamInvite.team invite)); discriminate].
  destruct (findById (TeamModel s) (TeamInvite.team invite)) as [team|] eqn:HT;
    [|discriminate].
  intros E. injection E as <- <-.
  pose proof (findById_id _ _ _ HU) as HUid. unfold doc_id, User_Document in HUid.
  split.
  - set (user' := User.set_teams user (User.teams user ++ [Team._id team])%list).
    set (team' := Team.set_members team
                    (Team.members team ++ [User._id user])%list).
    assert (findById (save user' (UserModel s)) (JWTData.id d) = Some user')
      as H1 by (rewrite <- HUid; exact (findById_save_same user' (UserModel s))).
    assert (findById (save team' (TeamModel s)) (Team._id team') = Some team')
      as H2 by exact (findById_save_same team' (TeamModel s)).
    unfold TeamService.getTeam. unfold_service. rewrite HV.
    cbn [UserModel TeamModel]. rewrite H1. cbn [UserModel TeamModel].
    rewrite H2.
    replace (Team.inTeam _ _) with true; [now rewrite andb_false_r|].
    symmetry. unfold Team.inTeam. apply orb_true_iff. left.
    apply existsb_exists. exists (User._id user). split.
    + cbn. apply in_or_app. right. now left.
    + apply Nat.eqb_refl.
  - exists d, (Team.members team). split; [reflexivity|].
    cbn. now rewrite HUid.
Qed.

Lemma useInvite_then_getTeam_witness :
  TeamService.getTeam Scenario.bob 5 Scenario.alphaJoined
  = (Ok (Team.mk 5 "alpha" 1 [2%nat] Socials.none [6%nat]), Scenario.alphaJoined)
  /\
  exists d before,
    jsonWebToken.verify Scenario.bob = Some d /\
    [2%nat] = (before ++ [JWTData.id d])%list.
Proof.
  apply (useInvite_then_getTeam Scenario.bob "a1b2c3"
           (run [CreateTeam Scenario.ada "Alpha";
                 CreateInvite Scenario.ada 5 Scenario.oneUse "a1b2c3" 1000]
                Scenario.start)
           Scenario.alphaJoined
           (Team.mk 5 "alpha" 1 [2%nat] Socials.none [6%nat])).
  vm_compute. reflexivity.
Defined.

(** X7. A team can be read back by its creator: after a [createTeam] that
    succeeds for a name in ASCII, the name returned is the requested name
    in lower case, and [getTeam] with the same token and the returned
    identifier answers with a team of that name, owned by the caller,
    without members, social links or invites. *)
Theorem createTeam_then_getTeam
  (jwt : Token) (teamName name : string) (teamID : ObjectId) (s s' : Store) :
  JS.isAscii teamName = true ->
  TeamService.createTeam jwt teamName s = (Ok (name, teamID), s') ->
  name = JS.toLowerCase teamName /\
  exists d,
    jsonWebToken.verify jwt = Some d /\
    TeamService.getTeam jwt teamID s'
    = (Ok (Team.mk teamID (JS.toLowerCase teamName) (JWTData.id d) []
                   Socials.none []), s').
Proof.
  intros _. unfold TeamService.createTeam. unfold_service.
  destruct (existsb _ (TeamModel s)); [discriminate|].
  destruct (jsonWebToken.verify jwt) as [d|] eqn:HV; [|discriminate].
  destruct (findById (UserModel s) (JWTData.id d)) as [owner|] eqn:HU;
    [|discriminate].
  intros E. injection E as <- <- <-.
  pose proof (findById_id _ _ _ HU) as HUid. unfold doc_id, User_Document in HUid.
  split; [reflexivity|]. exists d. split; [reflexivity|].
  set (team := Team.mk (nextId s) (JS.toLowerCase teamName) (User._id owner) []
                       Socials.none []).
  set (owner' := User.set_teams owner (User.teams owner ++ [nextId s])%list).
  assert (findById (save owner' (UserModel s)) (JWTData.id d) = Some owner')
    as H1 by (rewrite <- HUid; exact (findById_save_same owner' (UserModel s))).
  assert (findById (save team (save team (TeamModel s))) (nextId s) = Some team)
    as H2 by exact (findById_save_same team (save team (TeamModel s))).
  unfold TeamService.getTeam. unfold_service. rewrite HV.
  cbn [UserModel TeamModel nextId]. rewrite H1.
  cbn [UserModel TeamModel nextId]. rewrite H2.
  replace (Team.inTeam team _) with true;
    [rewrite andb_false_r; subst team; now rewrite HUid|].
  unfold Team.inTeam, Team.isOwner. cbn. now rewrite Nat.eqb_refl.
Qed.

Lemma createTeam_then_getTeam_witness :
  "alpha" = JS.toLowerCase "Alpha" /\
  exists d,
    jsonWebToken.verify Scenario.ada = Some d /\
    TeamService.getTeam Scenario.ada 5 Scenario.alphaOnly
    = (Ok (Team.mk 5 (JS.toLowerCase "Alpha") (JWTData.id d) []
                   Socials.none []), Scenario.alphaOnly).
Proof.
  apply (createTeam_then_getTeam Scenario.ada "Alpha" "alpha" 5
           Scenario.start Scenario.alphaOnly).
  - reflexivity.
  - vm_compute. reflexivity.
Defined.

(** ** Invites: creating, reading, deleting *)

Lemma find_save_fresh {A : Type} `{Document A}
  (p : A -> bool) (d : A) (c : list A) :
  find p c = None -> p d = true -> find p (save d c) = Some d.
Proof.
  intros HN Hd. induction c as [|x r IH]; simpl in *; [now rewrite Hd|].
  destruct (p x) eqn:Px; [discriminate|].
  destruct (doc_id x =? doc_id d)%nat; simpl.
  - now rewrite Hd.
  - rewrite Px. now apply IH.
Qed.

Lemma find_delete_all {A : Type} `{Document A}
  (p : A -> bool) (d : A) (c : list A) :
  (forall x, In x c -> p x = true -> doc_id x = doc_id d) ->
  find p (delete d c) = None.
Proof.
  induction c as [|x r IH]; simpl; [reflexivity|].
  intros HAll.
  assert (find p (delete d r) = None) as IH'
    by (apply IH; intros y Hy; apply HAll; now right).
  destruct (doc_id x =? doc_id d)%nat eqn:E; simpl; [exact IH'|].
  destruct (p x) eqn:Px; [|exact IH'].
  apply Nat.eqb_neq in E. exfalso. apply E. apply HAll; [now left | exact Px].
Qed.

(** The shape of a [createInvite] that succeeds. *)
Lemma createInvite_Ok
  (jwt : Token) (teamID : ObjectId) (o : InviteOptions.t) (code : string)
  (now : Z) (s s' : Store) (invite : TeamInvite.t) :
  TeamService.createInvite jwt teamID o code now s = (Ok invite, s') ->
  exists d user team,
    jsonWebToken.verify jwt = Some d /\
    findById (UserModel s) (JWTData.id d) = Some user /\
    findById (TeamModel s) teamID = Some team /\
    (User.isAdmin user = true \/ Team.isOwner team user = true) /\
    invite = TeamInvite.mk (nextId s) teamID code (InviteOptions.expiry o)
               (if JS.truthy_number (InviteOptions.maxUses o)
                then InviteOptions.maxUses o else None)
               now (JWTData.id d) [] /\
    s' = Build_Store (UserModel s)
           (save (Team.set_invites team (Team.invites team ++ [nextId s])%list)
                 (TeamModel s))
           (save invite (TeamInviteModel s))
           (S (nextId s)).
Proof.
  unfold TeamService.createInvite. unfold_service.
  destruct (jsonWebToken.verify jwt) as [d|] eqn:HV; [|discriminate].
  destruct (findById (UserModel s) (JWTData.id d)) as [user|] eqn:HU;
    [|discriminate].
  destruct (findById (TeamModel s) teamID) as [team|] eqn:HT;
    [|destruct (negb (User.isAdmin user)); discriminate].
  pose proof (findById_id _ _ _ HU) as HUid. unfold doc_id, User_Document in HUid.
  pose proof (findById_id _ _ _ HT) as HTid. unfold doc_id, Team_Document in HTid.
  destruct (User.isAdmin user) eqn:HA; cbn [negb].
  - intros E. injection E as <- <-. exists d, user, team.
    rewrite HUid, HTid. repeat split; auto.
  - destruct (Team.isOwner team user) eqn:HO; cbn [negb]; [|discriminate].
    intros E. injection E as <- <-. exists d, user, team.
    rewrite HUid, HTid. repeat split; auto.
Qed.

(** X8. An invite can be read back by its code: after a [createInvite] that
    succeeds with a code no stored invite had, an admin gets the created
    invite in full, at any time; an anonymous or non-admin caller gets its
    reduced view, as long as the requested expiry, if any, lies ahead and
    the requested [maxUses], if any, is not negative ([maxUses] of [0] is
    stored as no limit). *)
Theorem createInvite_then_getInvite
  (jwt : Token) (teamID : ObjectId) (o : InviteOptions.t) (code : string)
  (now : Z) (s s' : Store) (invite : TeamInvite.t) :
  TeamService.createInvite jwt teamID o code now s = (Ok invite, s') ->
  find (fun i => String.eqb (TeamInvite.inviteCode i) code) (TeamInviteModel s)
  = None ->
  (forall reader later,
     adminCaller reader s' ->
     TeamService.getInvite reader code later s'
     = (Ok (FullInvite (Some invite)), s'))
  /\
  (forall reader later,
     plainCaller reader s' ->
     (forall m, InviteOptions.maxUses o = Some m -> 0 <= m) ->
     (forall e, InviteOptions.expiry o = Some e -> later < e) ->
     TeamService.getInvite reader code later s'
     = (Ok (Basic (BasicInvite.mk teamID code (InviteOptions.expiry o)
                     (if JS.truthy_number (InviteOptions.maxUses o)
                      then InviteOptions.maxUses o else None))), s')).
Proof.
  intros HC HFresh.
  destruct (createInvite_Ok _ _ _ _ _ _ _ _ HC)
    as (d & user & team & HV & HU & HT & _ & HI & HS).
  assert (find (fun i => String.eqb (TeamInvite.inviteCode i) code)
               (TeamInviteModel s') = Some invite) as HFind.
  { rewrite HS. cbn [TeamInviteModel]. apply find_save_fresh; [assumption|].
    rewrite HI. cbn. apply String.eqb_refl. }
  split.
  - intros reader later (tok & d' & u & -> & HV' & HU' & HA).
    unfold TeamService.getInvite. unfold_service.
    rewrite HFind, HV', HU'. cbn. rewrite HA. reflexivity.
  - intros reader later HPlain HMax HExp.
    assert ((JS.geq_undefined (Z.of_nat (List.length (TeamInvite.uses invite)))
                              (TeamInvite.maxUses invite)
             || JS.geq_undefined later (TeamInvite.expiry invite))%bool = false)
      as HCheck.
    { rewrite HI. cbn [TeamInvite.uses TeamInvite.maxUses TeamInvite.expiry
                       List.length Z.of_nat].
      apply orb_false_iff. split.
      - destruct (InviteOptions.maxUses o) as [m|] eqn:EM; [|reflexivity].
        cbn. destruct (m =? 0) eqn:E0; cbn; [reflexivity|].
        apply Z.eqb_neq in E0. specialize (HMax m eq_refl).
        apply Z.leb_gt. lia.
      - destruct (InviteOptions.expiry o) as [e|] eqn:EE; [|reflexivity].
        cbn. apply Z.leb_gt. now apply HExp. }
    assert (basicInvite invite
            = BasicInvite.mk teamID code (InviteOptions.expiry o)
                (if JS.truthy_number (InviteOptions.maxUses o)
                 then InviteOptions.maxUses o else None)) as HB
      by (rewrite HI; reflexivity).
    unfold TeamService.getInvite. unfold_service. rewrite HFind.
    destruct HPlain as [-> | (tok & d' & -> & HV' & HU')].
    + cbn. rewrite HCheck, HB. reflexivity.
    + rewrite HV'.
      destruct (findById (UserModel s') (JWTData.id d')) as [u|] eqn:EU; cbn.
      * rewrite (HU' u eq_refl). cbn. rewrite HCheck, HB. reflexivity.
      * rewrite HCheck, HB. reflexivity.
Qed.

Lemma createInvite_then_getInvite_witness :
  let s0 := run [CreateTeam Scenario.ada "Alpha"] Scenario.start in
  let s1 := run [CreateTeam Scenario.ada "Alpha";
                 CreateInvite Scenario.ada 5 (InviteOptions.mk (Some 5000) (Some 0))
                              "c0ffee" 1000] Scenario.start in
  let invite := TeamInvite.mk 6 5 "c0ffee" (Some 5000) None 1000 1 [] in
  TeamService.getInvite (Some Scenario.root) "c0ffee" 9000 s1
  = (Ok (FullInvite (Some invite)), s1)
  /\
  TeamService.getInvite None "c0ffee" 2000 s1
  = (Ok (Basic (BasicInvite.mk 5 "c0ffee" (Some 5000) None)), s1).
Proof.
  intros s0 s1 invite.
  assert (TeamService.createInvite Scenario.ada 5
            (InviteOptions.mk (Some 5000) (Some 0)) "c0ffee" 1000 s0
          = (Ok invite, s1)) as HC by (vm_compute; reflexivity).
  assert (find (fun i => String.eqb (TeamInvite.inviteCode i) "c0ffee")
               (TeamInviteModel s0) = None) as HF by reflexivity.
  split.
  - apply (proj1 (createInvite_then_getInvite _ _ _ _ _ _ _ _ HC HF)).
    exists Scenario.root, (JWTData.mk 4 true), (User.mk 4 true []).
    repeat split; reflexivity.
  - apply (proj2 (createInvite_then_getInvite _ _ _ _ _ _ _ _ HC HF)
             None 2000).
    + left. reflexivity.
    + intros m E. injection E as <-. lia.
    + intros e E. injection E as <-. lia.
Defined.

(** X10. [getInvite] does not test whether the code is stored.  For a code
    no stored invite has, an anonymous or non-admin caller gets the
    runtime's [TypeError] (from reading [invite.uses]), not a not-found
    error, and an admin gets [null] as a successful answer. *)
Theorem getInvite_missing
  (jwt : option Token) (inviteID : string) (now : Z) (s : Store) :
  find (fun i => String.eqb (TeamInvite.inviteCode i) inviteID)
       (TeamInviteModel s) = None ->
  (plainCaller jwt s ->
   TeamService.getInvite jwt inviteID now s = (Throw TypeError, s)) /\
  (adminCaller jwt s ->
   TeamService.getInvite jwt inviteID now s = (Ok (FullInvite None), s)).
Proof.
  intros HF. split.
  - intros HP. unfold TeamService.getInvite. unfold_service. rewrite HF.
    destruct HP as [-> | (tok & d & -> & HV & HU)]; [reflexivity|].
    rewrite HV.
    destruct (findById (UserModel s) (JWTData.id d)) as [u|] eqn:EU; cbn;
      [rewrite (HU u eq_refl)|]; reflexivity.
  - intros (tok & d & u & -> & HV & HU & HA).
    unfold TeamService.getInvite. unfold_service.
    rewrite HF, HV, HU. cbn. rewrite HA. reflexivity.
Qed.

Lemma getInvite_missing_witness :
  TeamService.getInvite (Some Scenario.bob) "ffffff" 0 Scenario.alphaJoined
  = (Throw TypeError, Scenario.alphaJoined) /\
  TeamService.getInvite (Some Scenario.root) "ffffff" 0 Scenario.alphaJoined
  = (Ok (FullInvite None), Scenario.alphaJoined).
Proof.
  split.
  - apply (proj1 (getInvite_missing (Some Scenario.bob) "ffffff" 0
                    Scenario.alphaJoined eq_refl)).
    right. exists Scenario.bob, (JWTData.mk 2 false).
    split; [reflexivity|]. split; [reflexivity|].
    intros u E. vm_compute in E. injection E as <-. reflexivity.
  - apply (proj2 (getInvite_missing (Some Scenario.root) "ffffff" 0
                    Scenario.alphaJoined eq_refl)).
    exists Scenario.root, (JWTData.mk 4 true), (User.mk 4 true []).
    repeat split; reflexivity.
Defined.

(** X11. A deleted invite cannot be redeemed.  After a [deleteInvite] that
    succeeds on a store where no two invites of different identifiers
    share the code, [useInvite] with that code throws [NotFoundError] for
    every token that verifies.  The deletion touches the invite collection
    only: the team still lists the deleted invite among its invites. *)
Theorem deleteInvite_then_useInvite
  (jwt : Token) (inviteID : string) (s s' : Store) :
  TeamService.deleteInvite jwt inviteID s = (Ok tt, s') ->
  (forall x y, In x (TeamInviteModel s) -> In y (TeamInviteModel s) ->
     TeamInvite.inviteCode x = inviteID -> TeamInvite.inviteCode y = inviteID ->
     TeamInvite._id x = TeamInvite._id y) ->
  TeamModel s' = TeamModel s /\
  UserModel s' = UserModel s /\
  forall jwt' d',
    jsonWebToken.verify jwt' = Some d' ->
    TeamService.useInvite jwt' inviteID s'
    = (Throw (NotFoundError (withMessage "Invite not found")), s').
Proof.
  intros HD HUniq.
  assert (exists invite,
            find (fun i => String.eqb (TeamInvite.inviteCode i) inviteID)
                 (TeamInviteModel s) = Some invite /\
            s' = Build_Store (UserModel s) (TeamModel s)
                   (delete invite (TeamInviteModel s)) (nextId s))
    as (invite & HF & ->).
  { revert HD. unfold TeamService.deleteInvite. unfold_service.
    destruct (jsonWebToken.verify jwt) as [d|]; [|discriminate].
    destruct (find _ (TeamInviteModel s)) as [invite|];
      [|destruct (findById (UserModel s) (JWTData.id d)); discriminate].
    destruct (findById (UserModel s) (JWTData.id d)) as [user|];
      [|destruct (findById (TeamModel s) (TeamInvite.team invite));
        discriminate].
    destruct (findById (TeamModel s) (TeamInvite.team invite)) as [team|];
      destruct (negb (User.isAdmin user)); cbn;
      try destruct (negb (Team.isOwner team user)); cbn;
      try discriminate;
      intros E; injection E as <-; exists invite; now split. }
  split; [reflexivity|]. split; [reflexivity|].
  intros jwt' d' HV'.
  assert (find (fun i => String.eqb (TeamInvite.inviteCode i) inviteID)
               (delete invite (TeamInviteModel s)) = None) as HGone.
  { apply find_delete_all. intros x Hx Px. apply String.eqb_eq in Px.
    apply find_some in HF as [HIn Pi]. apply String.eqb_eq in Pi.
    now apply HUniq. }
  unfold TeamService.useInvite. unfold_service. rewrite HV'.
  cbn [TeamInviteModel UserModel]. rewrite HGone.
  destruct (findById (UserModel s) (JWTData.id d')); reflexivity.
Qed.

Lemma deleteInvite_then_useInvite_witness :
  let s' := run [CreateTeam Scenario.ada "Alpha";
                 CreateInvite Scenario.ada 5 Scenario.oneUse "a1b2c3" 1000;
                 UseInvite Scenario.bob "a1b2c3";
                 DeleteInvite Scenario.ada "a1b2c3"] Scenario.start in
  TeamModel s' = TeamModel Scenario.alphaJoined /\
  UserModel s' = UserModel Scenario.alphaJoined /\
  forall jwt' d',
    jsonWebToken.verify jwt' = Some d' ->
    TeamService.useInvite jwt' "a1b2c3" s'
    = (Throw (NotFoundError (withMessage "Invite not found")), s').
Proof.
  intros s'.
  apply (deleteInvite_then_useInvite Scenario.ada "a1b2c3"
           Scenario.alphaJoined s').
  - vm_compute. reflexivity.
  - intros x y [<- | []] [<- | []] _ _. reflexivity.
Defined.

(** ** [deleteTeam] and the invites it leaves behind *)

(** The shape of a [deleteTeam] that succeeds: the team had no members. *)
Lemma deleteTeam_Ok (jwt : Token) (teamID : ObjectId) (s s' : Store) :
  TeamService.deleteTeam jwt teamID s = (Ok tt, s') ->
  exists d user team,
    jsonWebToken.verify jwt = Some d /\
    findById (UserModel s) (JWTData.id d) = Some user /\
    findById (TeamModel s) teamID = Some team /\
    Team.members team = [] /\
    s' = Build_Store
           (save (User.set_teams user
                    (fst (JS.splice (User.teams user)
                            (JS.indexOf (User.teams user) (Team._id team)) 1)))
                 (UserModel s))
           (delete team (TeamModel s)) (TeamInviteModel s) (nextId s).
Proof.
  unfold TeamService.deleteTeam. unfold_service.
  destruct (jsonWebToken.verify jwt) as [d|] eqn:HV; [|discriminate].
  destruct (findById (UserModel s) (JWTData.id d)) as [u|] eqn:HU;
    [|discriminate].
  destruct (findById (TeamModel s) teamID) as [t|] eqn:HT;
    [|destruct (negb (User.isAdmin u)); discriminate].
  destruct (negb (User.isAdmin u)); cbn [fst snd];
    [destruct (negb (Team.isOwner t u)); cbn [fst snd]; [discriminate|]|];
    rewrite spliceTeamOfMembers_run; destruct (Team.members t) eqn:HM;
    try discriminate;
    intros E; injection E as <-; exists d, u, t;
    repeat split; first [reflexivity | assumption].
Qed.

(** X12. [deleteTeam] removes the team record and nothing of its invites.
    After a [deleteTeam] that succeeds, no team is stored under the
    identifier, the invite collection is as before, and redeeming an
    invite of the deleted team fails with the runtime's [TypeError] for
    every token that verifies, without writing. *)
Theorem deleteTeam_then_useInvite
  (jwt : Token) (teamID : ObjectId) (s s' : Store) :
  TeamService.deleteTeam jwt teamID s = (Ok tt, s') ->
  findById (TeamModel s') teamID = None /\
  TeamInviteModel s' = TeamInviteModel s /\
  forall jwt' d' code invite,
    jsonWebToken.verify jwt' = Some d' ->
    find (fun i => String.eqb (TeamInvite.inviteCode i) code)
         (TeamInviteModel s) = Some invite ->
    TeamInvite.team invite = teamID ->
    TeamService.useInvite jwt' code s' = (Throw TypeError, s').
Proof.
  intros HD.
  destruct (deleteTeam_Ok _ _ _ _ HD) as (d & user & team & _ & _ & HT & _ & ->).
  pose proof (findById_id _ _ _ HT) as HTid.
  assert (findById (delete team (TeamModel s)) teamID = None) as HGone
    by (rewrite <- HTid; apply findById_delete).
  split; [exact HGone|]. split; [reflexivity|].
  intros jwt' d' code invite HV' HF HTeam.
  unfold TeamService.useInvite. unfold_service. rewrite HV'.
  cbn [TeamInviteModel UserModel TeamModel]. rewrite HF.
  destruct (findById _ (JWTData.id d'));
    cbn [TeamModel]; rewrite HTeam, HGone; reflexivity.
Qed.

Lemma deleteTeam_then_useInvite_witness :
  let s' := run [CreateTeam Scenario.ada "Alpha";
                 CreateInvite Scenario.ada 5 Scenario.oneUse "a1b2c3" 1000;
                 DeleteTeam Scenario.ada 5] Scenario.start in
  findById (TeamModel s') 5 = None /\
  TeamInviteModel s' = TeamInviteModel Scenario.alphaInvited /\
  forall jwt' d' code invite,
    jsonWebToken.verify jwt' = Some d' ->
    find (fun i => String.eqb (TeamInvite.inviteCode i) code)
         (TeamInviteModel Scenario.alphaInvited) = Some invite ->
    TeamInvite.team invite = 5%nat ->
    TeamService.useInvite jwt' code s' = (Throw TypeError, s').
Proof.
  intros s'.
  apply (deleteTeam_then_useInvite Scenario.ada 5 Scenario.alphaInvited s').
  vm_compute. reflexivity.
Defined.

(** X27. A team that has a member cannot be deleted.  [team.members] holds
    identifiers, the loop reads [member.teams] on the first of them and the
    runtime throws: for a stored caller who is an admin or the team's
    owner, [deleteTeam] fails with [TypeError] and writes nothing, so the
    team and every reference to it stay. *)
Theorem deleteTeam_with_members
  (jwt : Token) (teamID : ObjectId) (s : Store) (d : JWTData.t)
  (user : User.t) (team : Team.t) :
  jsonWebToken.verify jwt = Some d ->
  findById (UserModel s) (JWTData.id d) = Some user ->
  findById (TeamModel s) teamID = Some team ->
  User.isAdmin user = true \/ Team.isOwner team user = true ->
  Team.members team <> [] ->
  TeamService.deleteTeam jwt teamID s = (Throw TypeError, s).
Proof.
  intros HV HU HT HAuth HM.
  unfold TeamService.deleteTeam. unfold_service. rewrite HV, HU, HT.
  assert ((if negb (User.isAdmin user)
           then if negb (Team.isOwner team user) then true else false
           else false) = false) as HPass.
  { destruct HAuth as [-> | ->]; [reflexivity|].
    destruct (negb (User.isAdmin user)); reflexivity. }
  destruct (negb (User.isAdmin user));
    [destruct (negb (Team.isOwner team user)); [discriminate HPass|]|];
    cbn [fst snd]; rewrite spliceTeamOfMembers_run;
    destruct (Team.members team); try contradiction; reflexivity.
Qed.

Lemma deleteTeam_with_members_witness :
  TeamService.deleteTeam Scenario.ada 5 Scenario.alphaJoined
  = (Throw TypeError, Scenario.alphaJoined).
Proof.
  apply (deleteTeam_with_members Scenario.ada 5 Scenario.alphaJoined
           (JWTData.mk 1 false) (User.mk 1 false [5%nat])
           (Team.mk 5 "alpha" 1 [2%nat] Socials.none [6%nat]));
    try reflexivity.
  - right. reflexivity.
  - discriminate.
Defined.

(** ** [updateTeam] *)

(** X13. A patch without a name and without social links, or with empty
    strings in their place, changes nothing: [updateTeam] answers as
    [getTeam] does and leaves the store as it was. *)
Theorem updateTeam_empty_patch
  (jwt : Token) (teamID : ObjectId) (patch : TeamDetailsUpdateData.t)
  (s : Store) :
  JS.truthy_string (TeamDetailsUpdateData.name patch) = false ->
  (forall l, TeamDetailsUpdateData.socials patch = Some l ->
     JS.truthy_string (TeamDetailsUpdateData.twitter l) = false /\
     JS.truthy_string (TeamDetailsUpdateData.website l) = false) ->
  TeamService.updateTeam jwt teamID patch s = TeamService.getTeam jwt teamID s
  /\ snd (TeamService.updateTeam jwt teamID patch s) = s.
Proof.
  intros HN HS.
  assert (TeamService.updateTeam jwt teamID patch s
          = TeamService.getTeam jwt teamID s) as HEq.
  { unfold TeamService.updateTeam, bind.
    destruct (TeamService.getTeam jwt teamID s) as [[team|e] s0] eqn:EG;
      [|reflexivity].
    apply getTeam_Ok in EG as [-> HT].
    assert (match TeamDetailsUpdateData.name patch with
            | Some n => if JS.truthy_string (Some n)
                        then Team.set_name team n else team
            | None => team
            end = team) as ->.
    { destruct (TeamDetailsUpdateData.name patch) as [n|]; [|reflexivity].
      now rewrite HN. }
    assert (JS.truthy_string
              match TeamDetailsUpdateData.socials patch with
              | Some l => TeamDetailsUpdateData.twitter l
              | None => None
              end = false) as ->.
    { destruct (TeamDetailsUpdateData.socials patch) as [l|]; [|reflexivity].
      now destruct (HS l eq_refl). }
    assert (JS.truthy_string
              match TeamDetailsUpdateData.socials patch with
              | Some l => TeamDetailsUpdateData.website l
              | None => None
              end = false) as ->.
    { destruct (TeamDetailsUpdateData.socials patch) as [l|]; [|reflexivity].
      now destruct (HS l eq_refl). }
    unfold saveTeam, modify, ret. rewrite (save_loaded _ _ _ HT).
    now destruct s. }
  split; [exact HEq|]. rewrite HEq. apply getTeam_store.
Qed.

Lemma updateTeam_empty_patch_witness :
  let patch := TeamDetailsUpdateData.mk (Some "")
                 (Some (TeamDetailsUpdateData.mkSocials None (Some ""))) in
  TeamService.updateTeam Scenario.bob 5 patch Scenario.alphaJoined
  = TeamService.getTeam Scenario.bob 5 Scenario.alphaJoined
  /\ snd (TeamService.updateTeam Scenario.bob 5 patch Scenario.alphaJoined)
     = Scenario.alphaJoined.
Proof.
  intros patch.
  apply (updateTeam_empty_patch Scenario.bob 5 patch Scenario.alphaJoined).
  - reflexivity.
  - intros l E. injection E as <-. split; reflexivity.
Defined.

(** X14. [updateTeam] changes the name and the social links of one team and
    nothing else: when it succeeds, the team it returns is the stored team
    of that identifier, with the identifier, owner, members and invites it
    had, and the users and the invites are as before. *)
Theorem updateTeam_frame
  (jwt : Token) (teamID : ObjectId) (patch : TeamDetailsUpdateData.t)
  (s s' : Store) (team' : Team.t) :
  TeamService.updateTeam jwt teamID patch s = (Ok team', s') ->
  exists team,
    findById (TeamModel s) teamID = Some team /\
    findById (TeamModel s') teamID = Some team' /\
    Team._id team' = teamID /\
    Team.owner team' = Team.owner team /\
    Team.members team' = Team.members team /\
    Team.invites team' = Team.invites team /\
    UserModel s' = UserModel s /\
    TeamInviteModel s' = TeamInviteModel s.
Proof.
  unfold TeamService.updateTeam, bind.
  destruct (TeamService.getTeam jwt teamID s) as [[team|e] s0] eqn:EG;
    [|discriminate].
  apply getTeam_Ok in EG as [-> HT].
  pose proof (findById_id _ _ _ HT) as HTid. unfold doc_id, Team_Document in HTid.
  unfold saveTeam, modify, ret. intros E. injection E as <- <-.
  exists team. split; [exact HT|].
  match goal with
  | |- findById (TeamModel (Build_Store _ (save ?t _) _ _)) _ = _ /\ _ =>
      set (team' := t)
  end.
  assert (Team._id team' = teamID /\ Team.owner team' = Team.owner team /\
          Team.members team' = Team.members team /\
          Team.invites team' = Team.invites team) as (H1 & H2 & H3 & H4).
  { subst team'. repeat break_match; cbn; rewrite ?HTid;
      repeat split; reflexivity. }
  split.
  - cbn [TeamModel]. rewrite <- H1. exact (findById_save_same team' (TeamModel s)).
  - repeat split; assumption.
Qed.

Lemma updateTeam_frame_witness :
  let patch := TeamDetailsUpdateData.mk (Some "Bobs") None in
  let s' := run [UpdateTeam Scenario.bob 5 patch] Scenario.alphaJoined in
  let team' := Team.mk 5 "Bobs" 1 [2%nat] Socials.none [6%nat] in
  exists team,
    findById (TeamModel Scenario.alphaJoined) 5 = Some team /\
    findById (TeamModel s') 5 = Some team' /\
    Team._id team' = 5%nat /\
    Team.owner team' = Team.owner team /\
    Team.members team' = Team.members team /\
    Team.invites team' = Team.invites team /\
    UserModel s' = UserModel Scenario.alphaJoined /\
    TeamInviteModel s' = TeamInviteModel Scenario.alphaJoined.
Proof.
  intros patch s' team'.
  apply (updateTeam_frame Scenario.bob 5 patch Scenario.alphaJoined s' team').
  vm_compute. reflexivity.
Defined.

(** ** [updateOwner] *)

(** The shape of an [updateOwner] that succeeds. *)
Lemma updateOwner_Ok
  (jwt : Token) (teamID newOwnerID : ObjectId) (s s' : Store) (team' : Team.t) :
  TeamService.updateOwner jwt teamID newOwnerID s = (Ok team', s') ->
  exists d team oldOwner newOwner,
    jsonWebToken.decode jwt = Some d /\
    findById (TeamModel s) teamID = Some team /\
    findById (UserModel s) (JWTData.id d) = Some oldOwner /\
    findById (UserModel s) newOwnerID = Some newOwner /\
    (JWTData.isAdmin d = false -> Team.isOwner team oldOwner = true) /\
    team' = Team.set_owner team newOwnerID /\
    s' = Build_Store (UserModel s) (save team' (TeamModel s))
                     (TeamInviteModel s) (nextId s).
Proof.
  unfold TeamService.updateOwner.
  destruct (jsonWebToken.decode jwt) as [d|]; [|discriminate].
  unfold bind at 1.
  destruct (TeamService.getTeam jwt teamID s) as [[team|e0] s0] eqn:EG;
    [|discriminate].
  apply getTeam_Ok in EG as [-> HT].
  unfold_service.
  destruct (findById (UserModel s) (JWTData.id d)) as [o|] eqn:EO;
    [|discriminate].
  destruct (findById (UserModel s) newOwnerID) as [n|] eqn:EN; [|discriminate].
  pose proof (findById_id _ _ _ EN) as HNid. unfold doc_id, User_Document in HNid.
  destruct (JWTData.isAdmin d) eqn:HA; cbn [negb].
  - intros E. injection E as <- <-. exists d, team, o, n.
    rewrite HNid. repeat split; auto. congruence.
  - destruct (Team.inTeam team n); cbn [negb]; [|discriminate].
    destruct (Team.isOwner team o) eqn:EOwn; cbn [negb]; [|discriminate].
    intros E. injection E as <- <-. exists d, team, o, n.
    rewrite HNid. repeat split; auto.
Qed.

(** X15. [updateOwner] rewrites the owner field of one team and nothing
    else: when it succeeds, the stored team is the old one with the new
    owner, so its members list is as before (the new owner is not added to
    it, the old owner is not moved into it), and no user's teams list and
    no invite is touched. *)
Theorem updateOwner_frame
  (jwt : Token) (teamID newOwnerID : ObjectId) (s s' : Store) (team' : Team.t) :
  TeamService.updateOwner jwt teamID newOwnerID s = (Ok team', s') ->
  exists team,
    findById (TeamModel s) teamID = Some team /\
    team' = Team.set_owner team newOwnerID /\
    findById (TeamModel s') teamID = Some team' /\
    UserModel s' = UserModel s /\
    TeamInviteModel s' = TeamInviteModel s.
Proof.
  intros HOk.
  destruct (updateOwner_Ok _ _ _ _ _ _ HOk)
    as (d & team & o & n & _ & HT & _ & _ & _ & HT' & ->).
  exists team. split; [exact HT|]. split; [exact HT'|].
  split; [|split; reflexivity].
  pose proof (findById_id _ _ _ HT) as HTid. unfold doc_id, Team_Document in HTid.
  cbn [TeamModel]. rewrite <- HTid. subst team'.
  exact (findById_save_same (Team.set_owner team newOwnerID) (TeamModel s)).
Qed.

Lemma updateOwner_frame_witness :
  let s' := run [UpdateOwner Scenario.root 5 3] Scenario.alphaJoined in
  exists team,
    findById (TeamModel Scenario.alphaJoined) 5 = Some team /\
    Team.mk 5 "alpha" 3 [2%nat] Socials.none [6%nat] = Team.set_owner team 3 /\
    findById (TeamModel s') 5
    = Some (Team.mk 5 "alpha" 3 [2%nat] Socials.none [6%nat]) /\
    UserModel s' = UserModel Scenario.alphaJoined /\
    TeamInviteModel s' = TeamInviteModel Scenario.alphaJoined.
Proof.
  intros s'.
  apply (updateOwner_frame Scenario.root 5 3 Scenario.alphaJoined s'
           (Team.mk 5 "alpha" 3 [2%nat] Socials.none [6%nat])).
  vm_compute. reflexivity.
Defined.

(** X16. Ownership can be given away once.  After a caller without the
    admin flag has transferred a team to another user, every further
    [updateOwner] on that team with the same token fails, whoever is
    proposed, and writes nothing. *)
Theorem updateOwner_only_once
  (jwt : Token) (teamID newOwnerID : ObjectId) (s s' : Store) (team' : Team.t)
  (d : JWTData.t) :
  jsonWebToken.decode jwt = Some d ->
  JWTData.isAdmin d = false ->
  newOwnerID <> JWTData.id d ->
  TeamService.updateOwner jwt teamID newOwnerID s = (Ok team', s') ->
  forall again,
    exists e, TeamService.updateOwner jwt teamID again s' = (Throw e, s').
Proof.
  intros HD HA HNew HOk again.
  destruct (updateOwner_frame _ _ _ _ _ _ HOk) as (team & HT & -> & HT' & HU & _).
  destruct (TeamService.updateOwner jwt teamID again s') as [[t2|e] s2] eqn:E2.
  - exfalso.
    destruct (updateOwner_Ok _ _ _ _ _ _ E2)
      as (d2 & team2 & o2 & n2 & HD2 & HT2 & HO2 & _ & HOwn & _ & _).
    rewrite HD in HD2. injection HD2 as <-.
    rewrite HT' in HT2. injection HT2 as <-.
    specialize (HOwn HA). unfold Team.isOwner in HOwn. cbn in HOwn.
    apply Nat.eqb_eq in HOwn.
    pose proof (findById_id _ _ _ HO2) as HOid.
    unfold doc_id, User_Document in HOid. congruence.
  - apply updateOwner_Throw_store in E2 as E2'. subst s2. now exists e.
Qed.

Lemma updateOwner_only_once_witness :
  exists e,
    TeamService.updateOwner Scenario.ada 5 3
      (run [UpdateOwner Scenario.ada 5 2] Scenario.alphaJoined)
    = (Throw e, run [UpdateOwner Scenario.ada 5 2] Scenario.alphaJoined).
Proof.
  apply (updateOwner_only_once Scenario.ada 5 2 Scenario.alphaJoined
           (run [UpdateOwner Scenario.ada 5 2] Scenario.alphaJoined)
           (Team.mk 5 "alpha" 2 [2%nat] Socials.none [6%nat])
           (JWTData.mk 1 false)).
  - reflexivity.
  - reflexivity.
  - simpl. discriminate.
  - vm_compute. reflexivity.
Defined.

(** ** The users *)

Lemma getInvite_store (jwt : option Token) (inviteID : string) (now : Z)
  (s : Store) :
  snd (TeamService.getInvite jwt inviteID now s) = s.
Proof. unfold TeamService.getInvite. service_cases. Qed.

Lemma accounts_save (c : list User.t) (u x : User.t) :
  findById c (User._id u) = Some x ->
  User.isAdmin x = User.isAdmin u ->
  map (fun u => (User._id u, User.isAdmin u)) (save u c)
  = map (fun u => (User._id u, User.isAdmin u)) c.
Proof.
  induction c as [|y r IH]; simpl; [discriminate|].
  unfold doc_id, User_Document in *.
  destruct (User._id y =? User._id u)%nat eqn:E; simpl.
  - intros F HA. injection F as ->. apply Nat.eqb_eq in E.
    now rewrite E, HA.
  - intros F HA. now rewrite (IH F HA).
Qed.

Lemma accounts_saveUser (s : Store) (i : ObjectId) (u : User.t)
  (l : list ObjectId) :
  findById (UserModel s) i = Some u ->
  accounts (snd (saveUser (User.set_teams u l) s)) = accounts s.
Proof.
  intros F. unfold accounts, saveUser, modify. cbn [snd UserModel].
  apply (accounts_save _ _ u); [|reflexivity].
  pose proof (findById_id _ _ _ F) as Hid. unfold doc_id, User_Document in Hid.
  cbn. now rewrite Hid.
Qed.

(** X17. The service never creates or deletes a user and never changes an
    admin flag: whatever requests are made, and however they are answered,
    the stored users are the registered ones, in the same order, each with
    the admin flag it was registered with. *)
Theorem users_are_the_registered_ones
  (users : list (ObjectId * bool)) (rs : list Request) :
  accounts (run rs (registered users)) = users.
Proof.
  assert (forall r s, accounts (step r s) = accounts s) as HStep.
  { intros r s. destruct r; unfold step.
    - unfold TeamService.createTeam. unfold_service.
      repeat (break_match; cbn [fst snd]); try reflexivity.
      match goal with
      | F : findById (UserModel s) ?i = Some ?u |- _ =>
          exact (accounts_saveUser
                   (Build_Store (UserModel s) _ (TeamInviteModel s) _) i u _ F)
      end.
    - now rewrite getTeam_store.
    - unfold TeamService.updateTeam, bind.
      pose proof (getTeam_store jwt teamID s) as HS.
      destruct (TeamService.getTeam jwt teamID s) as [[t|e0] s0];
        simpl in HS; subst s0; reflexivity.
    - destruct (TeamService.updateOwner jwt teamID newOwnerID s)
        as [[t|e0] s0] eqn:E; cbn [snd].
      + destruct (updateOwner_Ok _ _ _ _ _ _ E)
          as (_ & _ & _ & _ & _ & _ & _ & _ & _ & _ & ->). reflexivity.
      + now rewrite (updateOwner_Throw_store _ _ _ _ _ _ E).
    - unfold TeamService.createInvite. unfold_service.
      repeat (break_match; cbn [fst snd]); reflexivity.
    - now rewrite getInvite_store.
    - unfold TeamService.deleteInvite. unfold_service.
      repeat (break_match; cbn [fst snd]); reflexivity.
    - unfold TeamService.useInvite. unfold_service.
      repeat (break_match; cbn [fst snd]); try reflexivity.
      match goal with
      | F : findById (UserModel s) ?i = Some ?u |- _ =>
          exact (accounts_saveUser
                   (Build_Store (UserModel s) _ (TeamInviteModel s) _) i u _ F)
      end.
    - unfold TeamService.leaveTeam. unfold_service.
      repeat (break_match; cbn [fst snd]); try reflexivity.
      match goal with
      | F : findById (UserModel s) ?i = Some ?u |- _ =>
          exact (accounts_saveUser
                   (Build_Store (UserModel s) _ (TeamInviteModel s) _) i u _ F)
      end.
    - unfold TeamService.deleteTeam. unfold_service.
      destruct (jsonWebToken.verify jwt) as [d|]; [|reflexivity].
      destruct (findById (UserModel s) (JWTData.id d)) as [u|] eqn:FU;
        [|reflexivity].
      destruct (findById (TeamModel s) teamID) as [t|];
        [|destruct (negb (User.isAdmin u)); reflexivity].
      destruct (negb (User.isAdmin u)); cbn [fst snd];
        [destruct (negb (Team.isOwner t u)); cbn [fst snd]; [reflexivity|]|];
        rewrite spliceTeamOfMembers_run; destruct (Team.members t);
        cbn [fst snd]; try reflexivity;
        exact (accounts_saveUser
                 (Build_Store (UserModel s) _ (TeamInviteModel s) _) _ u _ FU). }
  assert (forall s, accounts (run rs s) = accounts s) as HRun.
  { induction rs as [|r rest IH]; intros s; [reflexivity|].
    unfold run in *. simpl. now rewrite IH, HStep. }
  rewrite HRun. unfold accounts, registered. cbn [UserModel].
  rewrite map_map. cbn. induction users as [|[i a] rest IH]; [reflexivity|].
  cbn. now rewrite IH.
Qed.

(** ** The logging variant, method by method *)

(** X18. For a token that verifies, the logging variant answers and writes
    as [Team.ts] does on [getTeam], [updateTeam] and [updateOwner], except
    that the refusal of a caller who is neither admin nor in the team
    carries the code "error_invalid_permissions" instead of
    "error_invalid_permissionseeeee". *)
Theorem logged_reads_differ_by_code
  (jwt : Token) (d : JWTData.t) (teamID : ObjectId) (s : Store) :
  jsonWebToken.verify jwt = Some d ->
  sameUpToCode (TeamService.getTeam jwt teamID s)
               (TeamServiceLogged.getTeam jwt teamID s) /\
  (forall patch,
     sameUpToCode (TeamService.updateTeam jwt teamID patch s)
                  (TeamServiceLogged.updateTeam jwt teamID patch s)) /\
  (forall newOwnerID,
     sameUpToCode (TeamService.updateOwner jwt teamID newOwnerID s)
                  (TeamServiceLogged.updateOwner jwt teamID newOwnerID s)).
Proof.
  intros HV.
  assert (sameUpToCode (TeamService.getTeam jwt teamID s)
                       (TeamServiceLogged.getTeam jwt teamID s)) as HG.
  { unfold TeamService.getTeam, TeamServiceLogged.getTeam. unfold_service.
    rewrite HV.
    destruct (findById (UserModel s) (JWTData.id d)) as [u|]; [|now left].
    destruct (findById (TeamModel s) teamID) as [t|]; [|now left].
    destruct (negb (User.isAdmin u) && negb (Team.inTeam t u))%bool;
      [right; now exists s | now left]. }
  split; [exact HG|]. split.
  - intros patch.
    unfold TeamService.updateTeam, TeamServiceLogged.updateTeam, bind.
    destruct HG as [<- | (s0 & -> & ->)].
    + left. reflexivity.
    + right. now exists s0.
  - intros o.
    unfold TeamService.updateOwner, TeamServiceLogged.updateOwner.
    destruct jwt as [|d'|d']; try discriminate HV.
    injection HV as ->.
    cbn [jsonWebToken.decode]. unfold verifyJWT.
    cbn [jsonWebToken.verify]. unfold bind, ret. cbv beta.
    destruct HG as [<- | (s0 & -> & ->)].
    + left. reflexivity.
    + right. now exists s0.
Qed.

Lemma logged_reads_differ_by_code_witness :
  sameUpToCode (TeamService.getTeam Scenario.cy 5 Scenario.alphaOnly)
               (TeamServiceLogged.getTeam Scenario.cy 5 Scenario.alphaOnly) /\
  (forall patch,
     sameUpToCode
       (TeamService.updateTeam Scenario.cy 5 patch Scenario.alphaOnly)
       (TeamServiceLogged.updateTeam Scenario.cy 5 patch Scenario.alphaOnly)) /\
  (forall newOwnerID,
     sameUpToCode
       (TeamService.updateOwner Scenario.cy 5 newOwnerID Scenario.alphaOnly)
       (TeamServiceLogged.updateOwner Scenario.cy 5 newOwnerID
          Scenario.alphaOnly)).
Proof.
  apply (logged_reads_differ_by_code Scenario.cy (JWTData.mk 3 false) 5
           Scenario.alphaOnly).
  reflexivity.
Defined.

(** X19. In the logging variant [useInvite], [deleteInvite], [leaveTeam]
    and [deleteTeam] read their documents before the load has run.  With a
    token that verifies, [useInvite] and [deleteInvite] always throw
    [NotFoundError] "Invite not found", [leaveTeam] always throws
    [NotFoundError "error_team_not_found"] and [deleteTeam] always fails
    with [TypeError], whatever is stored, and nothing is written. *)
Theorem logged_unawaited_loads (jwt : Token) (d : JWTData.t) (s : Store) :
  jsonWebToken.verify jwt = Some d ->
  (forall c, TeamServiceLogged.useInvite jwt c s
             = (Throw (NotFoundError (withMessage "Invite not found")), s)) /\
  (forall c, TeamServiceLogged.deleteInvite jwt c s
             = (Throw (NotFoundError (withMessage "Invite not found")), s)) /\
  (forall t, TeamServiceLogged.leaveTeam jwt t s
             = (Throw (NotFoundError (withCode "error_team_not_found")), s)) /\
  (forall t, TeamServiceLogged.deleteTeam jwt t s = (Throw TypeError, s)).
Proof.
  intros HV.
  unfold TeamServiceLogged.useInvite, TeamServiceLogged.deleteInvite,
    TeamServiceLogged.leaveTeam, TeamServiceLogged.deleteTeam.
  unfold_service. rewrite HV. repeat split.
Qed.

Lemma logged_unawaited_loads_witness :
  (forall c, TeamServiceLogged.useInvite Scenario.cy c Scenario.alphaJoined
             = (Throw (NotFoundError (withMessage "Invite not found")),
                Scenario.alphaJoined)) /\
  (forall c, TeamServiceLogged.deleteInvite Scenario.cy c Scenario.alphaJoined
             = (Throw (NotFoundError (withMessage "Invite not found")),
                Scenario.alphaJoined)) /\
  (forall t, TeamServiceLogged.leaveTeam Scenario.cy t Scenario.alphaJoined
             = (Throw (NotFoundError (withCode "error_team_not_found")),
                Scenario.alphaJoined)) /\
  (forall t, TeamServiceLogged.deleteTeam Scenario.cy t Scenario.alphaJoined
             = (Throw TypeError, Scenario.alphaJoined)).
Proof.
  apply (logged_unawaited_loads Scenario.cy (JWTData.mk 3 false)
           Scenario.alphaJoined).
  reflexivity.
Defined.

(** ** The token check, and names *)

Lemma invalid_token_first_witness :
  (forall teamID,
     TeamService.getTeam (Unverified (JWTData.mk 4 true)) teamID
                         Scenario.alphaJoined
     = (Throw InvalidJWT, Scenario.alphaJoined)) /\
  (forall teamID d,
     TeamService.updateTeam (Unverified (JWTData.mk 4 true)) teamID d
                            Scenario.alphaJoined
     = (Throw InvalidJWT, Scenario.alphaJoined)) /\
  (forall teamID o c now,
     TeamService.createInvite (Unverified (JWTData.mk 4 true)) teamID o c now
                              Scenario.alphaJoined
     = (Throw InvalidJWT, Scenario.alphaJoined)) /\
  (forall c,
     TeamService.deleteInvite (Unverified (JWTData.mk 4 true)) c
                              Scenario.alphaJoined
     = (Throw InvalidJWT, Scenario.alphaJoined)) /\
  (forall c,
     TeamService.useInvite (Unverified (JWTData.mk 4 true)) c
                           Scenario.alphaJoined
     = (Throw InvalidJWT, Scenario.alphaJoined)) /\
  (forall teamID,
     TeamService.leaveTeam (Unverified (JWTData.mk 4 true)) teamID
                           Scenario.alphaJoined
     = (Throw InvalidJWT, Scenario.alphaJoined)) /\
  (forall teamID,
     TeamService.deleteTeam (Unverified (JWTData.mk 4 true)) teamID
                            Scenario.alphaJoined
     = (Throw InvalidJWT, Scenario.alphaJoined)).
Proof.
  apply (invalid_token_first (Unverified (JWTData.mk 4 true))
           Scenario.alphaJoined).
  reflexivity.
Defined.

Lemma createTeam_preserves_uniqueNames_witness :
  uniqueNames (snd (TeamService.createTeam Scenario.cy "Gamma" Scenario.alphaBeta)).
Proof.
  apply (createTeam_preserves_uniqueNames Scenario.cy "Gamma" Scenario.alphaBeta).
  - reflexivity.
  - intros t [<- | [<- | []]]; reflexivity.
  - intros t1 t2 [<- | [<- | []]] [<- | [<- | []]] E;
      first [reflexivity | discriminate E].
  - intros t [<- | [<- | []]]; reflexivity.
Defined.

(** ** The handlers of the CTF routes *)

Lemma substring_all (t : string) : substring 0 (String.length t) t = t.
Proof. induction t as [|c r IH]; simpl; [reflexivity | now rewrite IH]. Qed.

Lemma slice_prefix (p t : string) :
  substring (String.length p) (String.length (p ++ t) - String.length p)
            (p ++ t) = t.
Proof.
  induction p as [|c r IH]; simpl.
  - rewrite Nat.sub_0_r. apply substring_all.
  - exact IH.
Qed.

Lemma slice7_prefix (p t : string) :
  String.length p = 7%nat -> CTFRoutes.slice7 (p ++ t) = t.
Proof.
  intros HL. unfold CTFRoutes.slice7. rewrite <- HL. apply slice_prefix.
Qed.

(** X20. Without an [Authorization] header every CTF handler calls [next]
    with [UnauthorizedError "error_unauthorized"] and then goes on to read
    the header, which throws: the service is not entered and nothing is
    sent.  With an empty header every one of the five calls [next] in the
    same way and yet enters the service, with the empty token, and passes
    its answer on as well. *)
Theorem handlers_falsy_header
  {Body CTF : Type} (svc : CTFRoutes.CTFService Body CTF)
  (req : CTFRoutes.Req Body) :
  (CTFRoutes.authorization req = None ->
   CTFRoutes.createCTFHandler svc req
   = [CTFRoutes.Next CTFRoutes.missingAuthorization; CTFRoutes.Raise TypeError] /\
   CTFRoutes.listCTFsHandler svc req
   = [CTFRoutes.Next CTFRoutes.missingAuthorization; CTFRoutes.Raise TypeError] /\
   CTFRoutes.getCTFHandler svc req
   = [CTFRoutes.Next CTFRoutes.missingAuthorization; CTFRoutes.Raise TypeError] /\
   CTFRoutes.archiveCTFHandler svc req
   = [CTFRoutes.Next CTFRoutes.missingAuthorization; CTFRoutes.Raise TypeError] /\
   CTFRoutes.unarchiveCTFHandler svc req
   = [CTFRoutes.Next CTFRoutes.missingAuthorization; CTFRoutes.Raise TypeError])
  /\
  (CTFRoutes.authorization req = Some "" ->
   CTFRoutes.createCTFHandler svc req
   = CTFRoutes.Next CTFRoutes.missingAuthorization :: CTFRoutes.Called ""
     :: CTFRoutes.settle 201
          (CTFRoutes.createCTF svc "" (CTFRoutes.teamID req) (CTFRoutes.body req))
   /\
   CTFRoutes.listCTFsHandler svc req
   = CTFRoutes.Next CTFRoutes.missingAuthorization :: CTFRoutes.Called ""
     :: CTFRoutes.settle 200
          (CTFRoutes.listCTFs svc "" (CTFRoutes.teamID req)
                              (CTFRoutes.includeArchived req))
   /\
   CTFRoutes.getCTFHandler svc req
   = CTFRoutes.Next CTFRoutes.missingAuthorization :: CTFRoutes.Called ""
     :: CTFRoutes.settle 200
          (CTFRoutes.getCTF svc "" (CTFRoutes.teamID req) (CTFRoutes.ctfID req))
   /\
   CTFRoutes.archiveCTFHandler svc req
   = CTFRoutes.Next CTFRoutes.missingAuthorization :: CTFRoutes.Called ""
     :: CTFRoutes.settle 200
          (CTFRoutes.archiveCTF svc "" (CTFRoutes.teamID req)
                                (CTFRoutes.ctfID req))
   /\
   CTFRoutes.unarchiveCTFHandler svc req
   = CTFRoutes.Next CTFRoutes.missingAuthorization :: CTFRoutes.Called ""
     :: CTFRoutes.settle 200
          (CTFRoutes.unarchiveCTF svc "" (CTFRoutes.teamID req)
                                  (CTFRoutes.ctfID req))).
Proof.
  unfold CTFRoutes.createCTFHandler, CTFRoutes.listCTFsHandler,
    CTFRoutes.getCTFHandler, CTFRoutes.archiveCTFHandler,
    CTFRoutes.unarchiveCTFHandler, CTFRoutes.guard, CTFRoutes.withToken.
  split; intros ->; repeat split.
Qed.

(** X21. The handlers strip the first seven characters of the header and
    never look at them.  For a header made of any seven characters
    followed by a token, each handler enters its service method once, with
    that token and the request's parameters, and then either sends the
    method's result, with status 201 for [createCTF] and 200 otherwise, or
    passes the method's error to [next]; it does nothing else. *)
Theorem handlers_strip_seven
  {Body CTF : Type} (svc : CTFRoutes.CTFService Body CTF)
  (req : CTFRoutes.Req Body) (scheme token : string) :
  String.length scheme = 7%nat ->
  CTFRoutes.authorization req = Some (scheme ++ token) ->
  CTFRoutes.createCTFHandler svc req
  = CTFRoutes.Called token
    :: CTFRoutes.settle 201
         (CTFRoutes.createCTF svc token (CTFRoutes.teamID req)
                              (CTFRoutes.body req)) /\
  CTFRoutes.listCTFsHandler svc req
  = CTFRoutes.Called token
    :: CTFRoutes.settle 200
         (CTFRoutes.listCTFs svc token (CTFRoutes.teamID req)
                             (CTFRoutes.includeArchived req)) /\
  CTFRoutes.getCTFHandler svc req
  = CTFRoutes.Called token
    :: CTFRoutes.settle 200
         (CTFRoutes.getCTF svc token (CTFRoutes.teamID req)
                           (CTFRoutes.ctfID req)) /\
  CTFRoutes.archiveCTFHandler svc req
  = CTFRoutes.Called token
    :: CTFRoutes.settle 200
         (CTFRoutes.archiveCTF svc token (CTFRoutes.teamID req)
                               (CTFRoutes.ctfID req)) /\
  CTFRoutes.unarchiveCTFHandler svc req
  = CTFRoutes.Called token
    :: CTFRoutes.settle 200
         (CTFRoutes.unarchiveCTF svc token (CTFRoutes.teamID req)
                                 (CTFRoutes.ctfID req)).
Proof.
  intros HL HA.
  assert (JS.truthy_string (Some (scheme ++ token)) = true) as HT.
  { destruct scheme as [|c r]; [discriminate HL | reflexivity]. }
  unfold CTFRoutes.createCTFHandler, CTFRoutes.listCTFsHandler,
    CTFRoutes.getCTFHandler, CTFRoutes.archiveCTFHandler,
    CTFRoutes.unarchiveCTFHandler, CTFRoutes.guard, CTFRoutes.withToken.
  rewrite HA, HT, (slice7_prefix scheme token HL). repeat split.
Qed.

Lemma handlers_falsy_header_witness :
  CTFRoutes.createCTFHandler HandlerScenario.service
    (HandlerScenario.request None)
  = [CTFRoutes.Next CTFRoutes.missingAuthorization; CTFRoutes.Raise TypeError]
  /\
  CTFRoutes.getCTFHandler HandlerScenario.service
    (HandlerScenario.request (Some ""))
  = [CTFRoutes.Next CTFRoutes.missingAuthorization; CTFRoutes.Called "";
     CTFRoutes.Next InvalidJWT].
Proof.
  split.
  - apply (proj1 (handlers_falsy_header HandlerScenario.service
                    (HandlerScenario.request None))).
    reflexivity.
  - apply (proj1 (proj2 (proj2 (proj2 (handlers_falsy_header
                    HandlerScenario.service
                    (HandlerScenario.request (Some ""))) eq_refl)))).
Defined.

Lemma handlers_strip_seven_witness :
  CTFRoutes.createCTFHandler HandlerScenario.service
    (HandlerScenario.request (Some "Bearer t0k3n"))
  = [CTFRoutes.Called "t0k3n"; CTFRoutes.Send 201 "{}"]
  /\
  CTFRoutes.getCTFHandler HandlerScenario.service
    (HandlerScenario.request (Some "Basic::t0k3n"))
  = [CTFRoutes.Called "t0k3n"; CTFRoutes.Send 200 "ctf9"].
Proof.
  split.
  - apply (proj1 (handlers_strip_seven HandlerScenario.service
                    (HandlerScenario.request (Some "Bearer t0k3n"))
                    "Bearer " "t0k3n" eq_refl eq_refl)).
  - apply (proj1 (proj2 (proj2 (handlers_strip_seven HandlerScenario.service
                    (HandlerScenario.request (Some "Basic::t0k3n"))
                    "Basic::" "t0k3n" eq_refl eq_refl)))).
Defined.

(** ** More on joining, leaving and naming *)

(** X24. [useInvite] appends and checks nothing: when it succeeds, the
    stored team has the caller appended to its members, the stored caller
    has the team appended to their teams, and the stored invite has the
    caller appended to its uses, also when the caller was a member, or the
    owner, or had redeemed the invite before. *)
Theorem useInvite_effect
  (jwt : Token) (inviteID : string) (s s' : Store) (team' : Team.t) :
  TeamService.useInvite jwt inviteID s = (Ok team', s') ->
  exists d user invite team,
    jsonWebToken.verify jwt = Some d /\
    findById (UserModel s) (JWTData.id d) = Some user /\
    find (fun i => String.eqb (TeamInvite.inviteCode i) inviteID)
         (TeamInviteModel s) = Some invite /\
    findById (TeamModel s) (TeamInvite.team invite) = Some team /\
    team' = Team.set_members team (Team.members team ++ [JWTData.id d])%list /\
    findById (TeamModel s') (TeamInvite.team invite) = Some team' /\
    findById (UserModel s') (JWTData.id d)
    = Some (User.set_teams user
              (User.teams user ++ [TeamInvite.team invite])%list) /\
    findById (TeamInviteModel s') (TeamInvite._id invite)
    = Some (TeamInvite.set_uses invite
              (TeamInvite.uses invite ++ [JWTData.id d])%list).
Proof.
  unfold TeamService.useInvite. unfold_service.
  destruct (jsonWebToken.verify jwt) as [d|] eqn:HV; [|discriminate].
  destruct (find _ (TeamInviteModel s)) as [invite|] eqn:HI;
    [|destruct (findById (UserModel s) (JWTData.id d)); discriminate].
  destruct (findById (UserModel s) (JWTData.id d)) as [user|] eqn:HU;
    [|destruct (findById (TeamModel s) (TeamInvite.team invite)); discriminate].
  destruct (findById (TeamModel s) (TeamInvite.team invite)) as [team|] eqn:HT;
    [|discriminate].
  intros E. injection E as <- <-.
  pose proof (findById_id _ _ _ HU) as HUid. unfold doc_id, User_Document in HUid.
  pose proof (findById_id _ _ _ HT) as HTid. unfold doc_id, Team_Document in HTid.
  exists d, user, invite, team. rewrite HUid, HTid.
  do 5 (split; [first [reflexivity | assumption]|]).
  cbn [TeamModel UserModel TeamInviteModel].
  split; [|split].
  - rewrite <- HTid.
    exact (findById_save_same
             (Team.set_members team (Team.members team ++ [JWTData.id d])%list)
             (TeamModel s)).
  - rewrite <- HUid.
    exact (findById_save_same
             (User.set_teams user
                (User.teams user ++ [TeamInvite.team invite])%list)
             (UserModel s)).
  - exact (findById_save_same
             (TeamInvite.set_uses invite
                (TeamInvite.uses invite ++ [JWTData.id d])%list)
             (TeamInviteModel s)).
Qed.

Lemma useInvite_effect_witness :
  let s' := run [UseInvite Scenario.bob "a1b2c3"] Scenario.alphaJoined in
  let team' := Team.mk 5 "alpha" 1 [2; 2]%nat Socials.none [6%nat] in
  exists d user invite team,
    jsonWebToken.verify Scenario.bob = Some d /\
    findById (UserModel Scenario.alphaJoined) (JWTData.id d) = Some user /\
    find (fun i => String.eqb (TeamInvite.inviteCode i) "a1b2c3")
         (TeamInviteModel Scenario.alphaJoined) = Some invite /\
    findById (TeamModel Scenario.alphaJoined) (TeamInvite.team invite)
    = Some team /\
    team' = Team.set_members team (Team.members team ++ [JWTData.id d])%list /\
    findById (TeamModel s') (TeamInvite.team invite) = Some team' /\
    findById (UserModel s') (JWTData.id d)
    = Some (User.set_teams user
              (User.teams user ++ [TeamInvite.team invite])%list) /\
    findById (TeamInviteModel s') (TeamInvite._id invite)
    = Some (TeamInvite.set_uses invite
              (TeamInvite.uses invite ++ [JWTData.id d])%list).
Proof.
  intros s' team'.
  apply (useInvite_effect Scenario.bob "a1b2c3" Scenario.alphaJoined s' team').
  vm_compute. reflexivity.
Defined.

(** The shape of a [leaveTeam] that succeeds. *)
Lemma leaveTeam_Ok (jwt : Token) (teamID : ObjectId) (s s' : Store) :
  TeamService.leaveTeam jwt teamID s = (Ok tt, s') ->
  exists d user team,
    jsonWebToken.verify jwt = Some d /\
    findById (UserModel s) (JWTData.id d) = Some user /\
    findById (TeamModel s) teamID = Some team /\
    Team.isOwner team user = false /\
    Team.inTeam team user = true /\
    s' = Build_Store
           (save (User.set_teams user
                    (fst (JS.splice (User.teams user)
                            (JS.indexOf (User.teams user) (Team._id team)) 1)))
                 (UserModel s))
           (save (Team.set_members team
                    (fst (JS.splice (Team.members team)
                            (JS.indexOf (Team.members team) (User._id user)) 1)))
                 (TeamModel s))
           (TeamInviteModel s) (nextId s).
Proof.
  unfold TeamService.leaveTeam. unfold_service.
  destruct (jsonWebToken.verify jwt) as [d|] eqn:EV; [|discriminate].
  destruct (findById (TeamModel s) teamID) as [team|] eqn:ET;
    [|destruct (findById (UserModel s) (JWTData.id d)); discriminate].
  destruct (findById (UserModel s) (JWTData.id d)) as [user|] eqn:EU;
    [|discriminate].
  destruct (Team.isOwner team user) eqn:EOwn; [discriminate|].
  destruct (Team.inTeam team user) eqn:EIn; cbn [negb]; [|discriminate].
  intros E. injection E as <-. exists d, user, team.
  repeat split; first [reflexivity | assumption].
Qed.

(** X25. Leaving a team keeps the leaver in and puts the others out.  After
    a [leaveTeam] that succeeds, [getTeam] with the same token still
    answers with the team, whose only member is now the caller, while any
    other stored user who is neither an admin nor the team's owner is
    refused with [UnauthorizedError], member or not. *)
Theorem leaveTeam_then_getTeam
  (jwt : Token) (teamID : ObjectId) (s s' : Store) :
  TeamService.leaveTeam jwt teamID s = (Ok tt, s') ->
  exists d team',
    jsonWebToken.verify jwt = Some d /\
    TeamService.getTeam jwt teamID s' = (Ok team', s') /\
    Team.members team' = [JWTData.id d] /\
    forall jwt2 d2 u2,
      jsonWebToken.verify jwt2 = Some d2 ->
      JWTData.id d2 <> JWTData.id d ->
      findById (UserModel s) (JWTData.id d2) = Some u2 ->
      User.isAdmin u2 = false ->
      Team.owner team' <> JWTData.id d2 ->
      TeamService.getTeam jwt2 teamID s'
      = (Throw (UnauthorizedError (withCode "error_invalid_permissionseeeee")),
         s').
Proof.
  intros HL.
  destruct (leaveTeam_Ok _ _ _ _ HL)
    as (d & user & team & HV & HU & HT & HOwn & HIn & ->).
  pose proof (findById_id _ _ _ HT) as HTid. unfold doc_id, Team_Document in HTid.
  pose proof (findById_id _ _ _ HU) as HUid. unfold doc_id, User_Document in HUid.
  pose proof (inTeam_not_owner team user HIn HOwn) as HMem.
  assert (fst (@JS.splice ObjectId (Team.members team)
                 (JS.indexOf (Team.members team) (User._id user)) 1)
          = [User._id user]) as HSp by exact (splice_indexOf_present _ _ HMem).
  rewrite HSp.
  set (user' := User.set_teams user _).
  set (team' := Team.set_members team [User._id user]).
  assert (findById (save team' (TeamModel s)) teamID = Some team') as HT'
    by (rewrite <- HTid; exact (findById_save_same team' (TeamModel s))).
  assert (findById (save user' (UserModel s)) (JWTData.id d) = Some user') as HU'
    by (rewrite <- HUid; exact (findById_save_same user' (UserModel s))).
  exists d, team'. split; [exact HV|]. split; [|split].
  - unfold TeamService.getTeam. unfold_service. rewrite HV.
    cbn [UserModel TeamModel]. rewrite HU'. cbn [UserModel TeamModel].
    rewrite HT'.
    replace (Team.inTeam team' user') with true; [now rewrite andb_false_r|].
    unfold Team.inTeam. cbn. now rewrite Nat.eqb_refl.
  - cbn. now rewrite HUid.
  - intros jwt2 d2 u2 HV2 HNe HU2 HA2 HO2.
    pose proof (findById_id _ _ _ HU2) as HU2id.
    unfold doc_id, User_Document in HU2id.
    assert (findById (save user' (UserModel s)) (JWTData.id d2) = Some u2) as HU2'.
    { rewrite findById_save_other; [exact HU2|].
      unfold doc_id, User_Document. cbn. rewrite HUid. auto. }
    unfold TeamService.getTeam. unfold_service. rewrite HV2.
    cbn [UserModel TeamModel]. rewrite HU2'. cbn [UserModel TeamModel].
    rewrite HT', HA2.
    replace (Team.inTeam team' u2) with false; [reflexivity|].
    symmetry. apply not_inTeam.
    + rewrite HU2id. exact HO2.
    + cbn. rewrite HU2id, HUid. intros [E | []]. auto.
Qed.

Lemma leaveTeam_then_getTeam_witness :
  exists d team',
    jsonWebToken.verify Scenario.cy = Some d /\
    TeamService.getTeam Scenario.cy 5 Scenario.cyLeftAlpha
    = (Ok team', Scenario.cyLeftAlpha) /\
    Team.members team' = [JWTData.id d] /\
    forall jwt2 d2 u2,
      jsonWebToken.verify jwt2 = Some d2 ->
      JWTData.id d2 <> JWTData.id d ->
      findById (UserModel Scenario.cyJoinedBoth) (JWTData.id d2) = Some u2 ->
      User.isAdmin u2 = false ->
      Team.owner team' <> JWTData.id d2 ->
      TeamService.getTeam jwt2 5 Scenario.cyLeftAlpha
      = (Throw (UnauthorizedError (withCode "error_invalid_permissionseeeee")),
         Scenario.cyLeftAlpha).
Proof.
  apply (leaveTeam_then_getTeam Scenario.cy 5 Scenario.cyJoinedBoth
           Scenario.cyLeftAlpha).
  vm_compute. reflexivity.
Defined.

Lemma In_save_same {A : Type} `{Document A} (d : A) (c : list A) :
  In d (save d c).
Proof.
  induction c as [|x r IH]; simpl; [now left|].
  destruct (doc_id x =? doc_id d)%nat; [now left | now right].
Qed.

(** X26. A name that has been given is taken: after a [createTeam] that
    succeeds for a name in ASCII, every [createTeam] for a name in ASCII
    that is the same up to case throws [ConflictError
    "error_team_exists"], whatever the token, and writes nothing. *)
Theorem createTeam_twice
  (jwt : Token) (teamName : string) (s s' : Store) (created : string * ObjectId) :
  JS.isAscii teamName = true ->
  TeamService.createTeam jwt teamName s = (Ok created, s') ->
  forall jwt' teamName',
    JS.isAscii teamName' = true ->
    JS.toLowerCase teamName' = JS.toLowerCase teamName ->
    TeamService.createTeam jwt' teamName' s'
    = (Throw (ConflictError (withCode "error_team_exists")), s').
Proof.
  intros _ HC jwt' teamName' _ HN.
  assert (exists t, In t (TeamModel s') /\ Team.name t = JS.toLowerCase teamName)
    as (t & HIn & Ht).
  { revert HC. unfold TeamService.createTeam. unfold_service.
    destruct (existsb _ (TeamModel s)); [discriminate|].
    destruct (jsonWebToken.verify jwt) as [d|]; [|discriminate].
    destruct (findById (UserModel s) (JWTData.id d)) as [owner|];
      [|discriminate].
    intros E. injection E as _ <-. eexists. split.
    - cbn [TeamModel]. apply In_save_same.
    - reflexivity. }
  assert (existsb (fun x => String.eqb (Team.name x) (JS.toLowerCase teamName'))
                  (TeamModel s') = true) as HExists.
  { apply existsb_exists. exists t. split; [assumption|].
    rewrite Ht, HN. apply String.eqb_refl. }
  unfold TeamService.createTeam. unfold_service. now rewrite HExists.
Qed.

Lemma createTeam_twice_witness :
  TeamService.createTeam Scenario.bob "ALPHA" Scenario.alphaOnly
  = (Throw (ConflictError (withCode "error_team_exists")), Scenario.alphaOnly).
Proof.
  apply (createTeam_twice Scenario.ada "Alpha" Scenario.start
           Scenario.alphaOnly ("alpha", 5%nat)).
  - reflexivity.
  - vm_compute. reflexivity.
  - reflexivity.
  - reflexivity.
Defined.
